(** * Inline-completion orchestration core: embedding and verified properties

    The development follows the TypeScript sources of the completion core:
    - [ArtificialDelay]: the adaptive latency engine exercised by
      [artificial-delay.test.ts];
    - [ContextStrategyFactory]: [context/context-strategy.ts];
    - [MultiModel]: the multi-provider comparison dispatcher;
    - [CreateInlineCompletionItemProvider]: provider registration and the
      per-language document filters;
    - [Ollama]: prompt-context assembly of the experimental Ollama provider. *)

From stdpp Require Import gmap strings list fin_maps.

(* ===================================================================== *)
(** * The artificial delay engine                                         *)
(* ===================================================================== *)

Module ArtificialDelay.

Local Open Scope Z_scope.

(** [LatencyFeatureFlags]: the test passes [{ user: true }] or
    [{ user: false }]. *)
Record LatencyFeatureFlags := { user : bool }.

(** Modelled from the spec: [artificial-delay.ts] is missing; one entry of
    the per-URI delay state: the URI's rejection counter and the time
    (milliseconds, as [Date.now()]) of the last call for it. *)
Record DelayState := { rejectionStreak : Z; lastCallAt : Z }.

(** Modelled from the spec: [artificial-delay.ts] is missing; the baseline
    of a low-performance language or of a comment. *)
Definition lowPerformanceLatency : Z := 1000.

(** Modelled from the spec: [artificial-delay.ts] is missing; the latency
    added per rejected suggestion. *)
Definition userLatencyStep : Z := 50.

(** Modelled from the spec: [artificial-delay.ts] is missing; the cap on
    the returned delay. *)
Definition maxLatency : Z := 1400.

(** Modelled from the spec: [artificial-delay.ts] is missing; the number of
    rejections that add no latency. *)
Definition rejectionThreshold : Z := 5.

(** Modelled from the spec: [artificial-delay.ts] is missing; the idle
    window after which a counter starts over. *)
Definition idleWindowMs : Z := 5 * 60 * 1000.

Section Engine.

(** The fixed set of low-performance language ids.  The test only fixes
    that it contains "css" and contains neither "typescript" nor "go", so
    the engine is parametric in it. *)
Variable lowPerformanceLanguageIds : gset string.

(** Modelled from the spec: [artificial-delay.ts] is missing (only its test
    is present); step 2 of the algorithm: the baseline is 1000ms when the
    language is in the low-performance set or the node type is "comment",
    and 0 otherwise. *)
Definition baselineDelay (languageId : string) (nodeType : option string) : Z :=
  if bool_decide (languageId ∈ lowPerformanceLanguageIds)
     || bool_decide (nodeType = Some "comment")
  then lowPerformanceLatency
  else 0.

(** Modelled from the spec: [artificial-delay.ts] is missing; step 3 of the
    algorithm: with the user-latency flag, 50ms per rejected suggestion
    beyond the 5th, capped so that baseline plus user latency stays within
    1400ms.  [rejections] counts the current call too (every call without
    an accept increments the counter). *)
Definition userLatency (flags : LatencyFeatureFlags) (baseline rejections : Z) : Z :=
  if user flags
  then Z.min (userLatencyStep * Z.max 0 (rejections - rejectionThreshold))
             (maxLatency - baseline)
  else 0.

(** Modelled from the spec: [artificial-delay.ts] is missing; the counter in
    force for [uri] at time [now]: zero for a URI without an entry, zero
    again once the idle window has elapsed since the last call for the
    URI (the test resets after an advance of exactly five minutes), the
    recorded counter otherwise. *)
Definition currentStreak (now : Z) (uri : string) (state : gmap string DelayState) : Z :=
  match state !! uri with
  | Some s =>
      if bool_decide (idleWindowMs <= now - lastCallAt s) then 0 else rejectionStreak s
  | None => 0
  end.

(** Modelled from the spec: [artificial-delay.ts] is missing; the engine
    [getArtificialDelay(featureFlags, uri, languageId, disableDelay,
    nodeType?)] with the clock and the per-URI state made explicit.  The
    disable flag returns 0 and bypasses the state. *)
Definition getArtificialDelay (flags : LatencyFeatureFlags) (uri languageId : string)
    (disableDelay : bool) (nodeType : option string)
    (now : Z) (state : gmap string DelayState) : Z * gmap string DelayState :=
  if disableDelay then (0, state)
  else
    let baseline := baselineDelay languageId nodeType in
    let rejections := currentStreak now uri state + 1 in
    let total := Z.min (baseline + userLatency flags baseline rejections) maxLatency in
    (total, <[uri := {| rejectionStreak := rejections; lastCallAt := now |}]> state).

(** Modelled from the spec: [artificial-delay.ts] is missing;
    [resetArtificialDelay()] zeroes the counter of every URI. *)
Definition resetArtificialDelay (state : gmap string DelayState) : gmap string DelayState :=
  (λ s, {| rejectionStreak := 0; lastCallAt := lastCallAt s |}) <$> state.

(** The steps of a test script: a call, an accepted suggestion
    ([resetArtificialDelay()]), or the fake clock moving forward
    ([vi.advanceTimersByTime]). *)
Inductive Step :=
  | Call (flags : LatencyFeatureFlags) (uri languageId : string)
         (disableDelay : bool) (nodeType : option string)
  | Accept
  | AdvanceTimersByTime (ms : Z).

(** Runs a script from the given clock and state and collects the delay
    returned by each call, in order. *)
Fixpoint runScript (script : list Step) (now : Z) (state : gmap string DelayState)
    : list Z :=
  match script with
  | [] => []
  | Call flags uri languageId disableDelay nodeType :: rest =>
      let '(delay, state') :=
        getArtificialDelay flags uri languageId disableDelay nodeType now state in
      delay :: runScript rest now state'
  | Accept :: rest => runScript rest now (resetArtificialDelay state)
  | AdvanceTimersByTime ms :: rest => runScript rest (now + ms) state
  end.

(** The delay computed from a counter value [streak] in force before the
    call. *)
Definition delayForStreak (flags : LatencyFeatureFlags) (baseline streak : Z) : Z :=
  Z.min (baseline + userLatency flags baseline (streak + 1)) maxLatency.

(** The state after [n] further calls for the same URI at the same clock. *)
Definition afterCalls (flags : LatencyFeatureFlags) (uri languageId : string)
    (nodeType : option string) (now : Z) (n : nat)
    (state : gmap string DelayState) : gmap string DelayState :=
  Nat.iter n
    (λ st, (getArtificialDelay flags uri languageId false nodeType now st).2) state.

(** ** Basic facts *)

Lemma baselineDelay_cases languageId nodeType :
  baselineDelay languageId nodeType = 0 ∨ baselineDelay languageId nodeType = 1000.
Proof.
  unfold baselineDelay, lowPerformanceLatency.
  destruct (_ || _); [right | left]; reflexivity.
Qed.

Lemma baselineDelay_low_performance languageId nodeType :
  languageId ∈ lowPerformanceLanguageIds →
  baselineDelay languageId nodeType = 1000.
Proof.
  intros Hin. unfold baselineDelay.
  rewrite (bool_decide_eq_true_2 _ Hin). reflexivity.
Qed.

Lemma baselineDelay_comment languageId :
  baselineDelay languageId (Some "comment") = 1000.
Proof.
  unfold baselineDelay. rewrite (bool_decide_eq_true_2 (Some "comment" = _) eq_refl).
  rewrite orb_true_r. reflexivity.
Qed.

Lemma getArtificialDelay_delay flags uri languageId nodeType now state :
  (getArtificialDelay flags uri languageId false nodeType now state).1
  = delayForStreak flags (baselineDelay languageId nodeType) (currentStreak now uri state).
Proof. reflexivity. Qed.

Lemma getArtificialDelay_entry flags uri languageId nodeType now state :
  (getArtificialDelay flags uri languageId false nodeType now state).2 !! uri
  = Some {| rejectionStreak := currentStreak now uri state + 1; lastCallAt := now |}.
Proof. cbn. apply lookup_insert_eq. Qed.

Lemma getArtificialDelay_other flags uri other languageId disableDelay nodeType now state :
  other ≠ uri →
  (getArtificialDelay flags uri languageId disableDelay nodeType now state).2 !! other
  = state !! other.
Proof.
  intros Hne. unfold getArtificialDelay.
  destruct disableDelay; cbn; [reflexivity |].
  rewrite lookup_insert_ne; [reflexivity | congruence].
Qed.

Lemma getArtificialDelay_streak flags uri languageId nodeType now state :
  currentStreak now uri
    (getArtificialDelay flags uri languageId false nodeType now state).2
  = currentStreak now uri state + 1.
Proof.
  unfold currentStreak at 1. rewrite getArtificialDelay_entry. cbn.
  rewrite bool_decide_eq_false_2; [reflexivity |].
  unfold idleWindowMs. lia.
Qed.

Lemma resetArtificialDelay_streak now uri state :
  currentStreak now uri (resetArtificialDelay state) = 0.
Proof.
  unfold currentStreak, resetArtificialDelay. rewrite lookup_fmap.
  destruct (state !! uri) as [s|]; cbn; [| reflexivity].
  destruct (bool_decide _); reflexivity.
Qed.

Lemma delayForStreak_below flags baseline streak :
  0 ≤ baseline ≤ 1400 → streak < 5 → delayForStreak flags baseline streak = baseline.
Proof.
  intros Hb Hr.
  unfold delayForStreak, userLatency, userLatencyStep, rejectionThreshold, maxLatency.
  destruct (user flags); lia.
Qed.

Lemma delayForStreak_beyond flags baseline streak :
  user flags = true → 5 ≤ streak →
  delayForStreak flags baseline streak = Z.min (baseline + 50 * (streak - 4)) 1400.
Proof.
  intros Hu Hr.
  unfold delayForStreak, userLatency, userLatencyStep, rejectionThreshold, maxLatency.
  rewrite Hu. lia.
Qed.

Lemma delayForStreak_max flags baseline streak :
  delayForStreak flags baseline streak ≤ 1400.
Proof. unfold delayForStreak, maxLatency. lia. Qed.

Lemma afterCalls_streak flags uri languageId nodeType now n state :
  currentStreak now uri (afterCalls flags uri languageId nodeType now n state)
  = currentStreak now uri state + Z.of_nat n.
Proof.
  induction n as [|n IH]; [cbn; lia |].
  unfold afterCalls in *. rewrite Nat.iter_succ.
  rewrite getArtificialDelay_streak, IH. lia.
Qed.

Lemma runScript_call flags uri languageId disableDelay nodeType rest now state :
  runScript (Call flags uri languageId disableDelay nodeType :: rest) now state
  = (getArtificialDelay flags uri languageId disableDelay nodeType now state).1
    :: runScript rest now
         (getArtificialDelay flags uri languageId disableDelay nodeType now state).2.
Proof. cbn. destruct (getArtificialDelay _ _ _ _ _ _ _). reflexivity. Qed.

Lemma runScript_accept rest now state :
  runScript (Accept :: rest) now state = runScript rest now (resetArtificialDelay state).
Proof. reflexivity. Qed.

Lemma runScript_advance ms rest now state :
  runScript (AdvanceTimersByTime ms :: rest) now state = runScript rest (now + ms) state.
Proof. reflexivity. Qed.

(** [n] consecutive calls for one URI return the delays of the counters
    [r], [r + 1], ..., [r + n - 1], where [r] is the counter in force at
    the first of them. *)
Lemma runScript_calls flags uri languageId nodeType now rest n :
  ∀ state,
    runScript (replicate n (Call flags uri languageId false nodeType) ++ rest) now state
    = map (λ k, delayForStreak flags (baselineDelay languageId nodeType)
                  (currentStreak now uri state + Z.of_nat k)) (seq 0 n)
      ++ runScript rest now (afterCalls flags uri languageId nodeType now n state).
Proof.
  induction n as [|n IH]; intros state.
  - cbn. reflexivity.
  - change (replicate (S n) ?c ++ rest) with (c :: (replicate n c ++ rest)).
    rewrite runScript_call, IH, getArtificialDelay_delay, getArtificialDelay_streak.
    cbn [seq map app]. rewrite Z.add_0_r. f_equal.
    rewrite <- seq_shift, map_map. f_equal.
    + apply map_ext. intros k. f_equal. lia.
    + unfold afterCalls. rewrite Nat.iter_succ_r. reflexivity.
Qed.

(** The call of the CSS scenario of the test: user flag on, delay not
    disabled, no node type. *)
Definition cssCall (uri : string) : Step :=
  Call {| user := true |} uri "css" false None.

(** ** Verified properties of the engine *)

(** C1: with the user-latency flag enabled and the delay not disabled, a
    call made while the URI's rejection counter [r] is below 5 adds nothing
    to the baseline; once [r >= 5] it adds exactly [50 * (r - 4)]
    milliseconds, the sum with the baseline being clamped to 1400ms, which
    the returned delay never exceeds. *)
Theorem getArtificialDelay_user_latency flags uri languageId nodeType now state :
  user flags = true →
  let r := currentStreak now uri state in
  let baseline := baselineDelay languageId nodeType in
  let delay := (getArtificialDelay flags uri languageId false nodeType now state).1 in
  (r < 5 → delay = baseline + 0)
  ∧ (5 ≤ r → delay = Z.min (baseline + 50 * (r - 4)) 1400)
  ∧ delay ≤ 1400.
Proof.
  intros Huser r baseline delay. subst delay.
  rewrite getArtificialDelay_delay. fold r baseline.
  split; [| split].
  - intros Hr. rewrite Z.add_0_r. apply delayForStreak_below; [| exact Hr].
    subst baseline. destruct (baselineDelay_cases languageId nodeType) as [-> | ->]; lia.
  - intros Hr. apply delayForStreak_beyond; assumption.
  - apply delayForStreak_max.
Qed.

(** C2 (amended): for "css" in the low-performance set and the user flag on,
    a fresh sequence of calls on one URI returns 1000 for each of the first
    five calls, 1050 for the sixth, 1200 for the ninth, reaches 1400 at the
    thirteenth, and returns 1000 again after [resetArtificialDelay()]. *)
Theorem css_scenario_delays uri now state :
  "css" ∈ lowPerformanceLanguageIds →
  state !! uri = None →
  runScript (replicate 13 (cssCall uri) ++ [Accept; cssCall uri]) now state
  = [1000; 1000; 1000; 1000; 1000; 1050; 1100; 1150; 1200; 1250; 1300; 1350; 1400;
     1000].
Proof.
  intros Hcss Hfresh. unfold cssCall.
  rewrite runScript_calls.
  rewrite runScript_accept, runScript_call. cbn [runScript].
  rewrite getArtificialDelay_delay, resetArtificialDelay_streak.
  rewrite (baselineDelay_low_performance _ _ Hcss).
  unfold currentStreak. rewrite Hfresh.
  vm_compute. reflexivity.
Qed.

(** C7: a call for a URI made more than five minutes after the last call
    for that URI returns exactly the baseline of its language and node
    type, whatever counter the URI had reached; after a gap of three
    minutes the recorded counter is still in force and the call extends
    it. *)
Theorem getArtificialDelay_idle_reset flags uri languageId nodeType now state entry :
  state !! uri = Some entry →
  let call := getArtificialDelay flags uri languageId false nodeType now state in
  let baseline := baselineDelay languageId nodeType in
  (5 * 60 * 1000 < now - lastCallAt entry → call.1 = baseline)
  ∧ (now - lastCallAt entry = 3 * 60 * 1000 →
     call.1 = delayForStreak flags baseline (rejectionStreak entry)
     ∧ call.2 !! uri
       = Some {| rejectionStreak := rejectionStreak entry + 1; lastCallAt := now |}).
Proof.
  intros Hentry call baseline. subst call.
  rewrite getArtificialDelay_delay, getArtificialDelay_entry. fold baseline.
  unfold currentStreak. rewrite Hentry.
  split.
  - intros Hidle. rewrite bool_decide_eq_true_2 by (unfold idleWindowMs; lia).
    apply delayForStreak_below; [| lia].
    subst baseline. destruct (baselineDelay_cases languageId nodeType) as [-> | ->]; lia.
  - intros Hgap. rewrite bool_decide_eq_false_2 by (unfold idleWindowMs; lia).
    split; reflexivity.
Qed.

(** C8: the first call for a URI without an entry uses a counter of 0 and
    returns the baseline only, and a call for one URI leaves the entry of
    every other URI as it was. *)
Theorem getArtificialDelay_per_uri flags uri other languageId disableDelay nodeType
    now state :
  (state !! uri = None →
     currentStreak now uri state = 0
     ∧ (getArtificialDelay flags uri languageId false nodeType now state).1
       = baselineDelay languageId nodeType)
  ∧ (other ≠ uri →
     (getArtificialDelay flags uri languageId disableDelay nodeType now state).2 !! other
     = state !! other).
Proof.
  split.
  - intros Hfresh.
    assert (Hzero : currentStreak now uri state = 0)
      by (unfold currentStreak; rewrite Hfresh; reflexivity).
    split; [exact Hzero |].
    rewrite getArtificialDelay_delay, Hzero.
    apply delayForStreak_below; [| lia].
    destruct (baselineDelay_cases languageId nodeType) as [-> | ->]; lia.
  - apply getArtificialDelay_other.
Qed.

End Engine.

(** ** Concrete runs *)

(** The state of a CSS file whose counter has reached 12 at time 0. *)
Definition rejectedCss : gmap string DelayState :=
  {[ "file://foo/bar/test.css" := {| rejectionStreak := 12; lastCallAt := 0 |} ]}.

Lemma getArtificialDelay_user_latency_witness :
  user {| user := true |} = true
  ∧ currentStreak (3 * 60 * 1000) "file://foo/bar/test.css" rejectedCss = 12
  ∧ (getArtificialDelay {[ "css" ]} {| user := true |} "file://foo/bar/test.css" "css"
       false None (3 * 60 * 1000) rejectedCss).1
    = Z.min (baselineDelay {[ "css" ]} "css" None + 50 * (12 - 4)) 1400.
Proof.
  split; [reflexivity |].
  assert (Hstreak : currentStreak (3 * 60 * 1000) "file://foo/bar/test.css" rejectedCss
                    = 12) by (vm_compute; reflexivity).
  split; [exact Hstreak |].
  pose proof (getArtificialDelay_user_latency {[ "css" ]} {| user := true |}
                "file://foo/bar/test.css" "css" None (3 * 60 * 1000) rejectedCss eq_refl)
    as (_ & Hbeyond & _).
  cbn zeta in Hbeyond. rewrite Hstreak in Hbeyond.
  apply Hbeyond. lia.
Defined.

Lemma css_scenario_delays_witness :
  "css" ∈ ({[ "css" ]} : gset string)
  ∧ (∅ : gmap string DelayState) !! "file://foo/bar/test.css" = None
  ∧ runScript {[ "css" ]}
      (replicate 13 (cssCall "file://foo/bar/test.css")
       ++ [Accept; cssCall "file://foo/bar/test.css"]) 0 ∅
    = [1000; 1000; 1000; 1000; 1000; 1050; 1100; 1150; 1200; 1250; 1300; 1350; 1400;
       1000].
Proof.
  assert (Hcss : "css" ∈ ({[ "css" ]} : gset string))
    by (apply elem_of_singleton_2; reflexivity).
  split; [exact Hcss |]. split; [apply lookup_empty |].
  apply (css_scenario_delays {[ "css" ]} "file://foo/bar/test.css" 0 ∅ Hcss).
  apply lookup_empty.
Defined.

(** C2 as stated fails: the ninth call of the fresh CSS sequence returns
    1200, not 1400. *)
Lemma css_ninth_call_is_not_1400 :
  let delays :=
    runScript {[ "css" ]}
      (replicate 9 (cssCall "file://foo/bar/test.css")
       ++ [Accept; cssCall "file://foo/bar/test.css"]) 0 ∅ in
  delays !! 8%nat = Some 1200
  ∧ ¬ (take 5 delays = replicate 5 1000
       ∧ delays !! 5%nat = Some 1050
       ∧ delays !! 8%nat = Some 1400
       ∧ delays !! 9%nat = Some 1000).
Proof.
  vm_compute. split; [reflexivity |].
  intros (_ & _ & Hninth & _). discriminate Hninth.
Qed.

Lemma getArtificialDelay_idle_reset_witness :
  rejectedCss !! "file://foo/bar/test.css"
  = Some {| rejectionStreak := 12; lastCallAt := 0 |}
  ∧ (getArtificialDelay {[ "css" ]} {| user := true |} "file://foo/bar/test.css" "css"
       false None (5 * 60 * 1000 + 1) rejectedCss).1 = 1000
  ∧ (getArtificialDelay {[ "css" ]} {| user := true |} "file://foo/bar/test.css" "css"
       false None (3 * 60 * 1000) rejectedCss).1 = 1400.
Proof.
  assert (Hentry : rejectedCss !! "file://foo/bar/test.css"
                   = Some {| rejectionStreak := 12; lastCallAt := 0 |})
    by (vm_compute; reflexivity).
  split; [exact Hentry |]. split.
  - rewrite (proj1 (getArtificialDelay_idle_reset {[ "css" ]} {| user := true |}
                      "file://foo/bar/test.css" "css" None (5 * 60 * 1000 + 1)
                      rejectedCss _ Hentry)).
    + vm_compute. reflexivity.
    + vm_compute. reflexivity.
  - rewrite (proj1 (proj2 (getArtificialDelay_idle_reset {[ "css" ]} {| user := true |}
                             "file://foo/bar/test.css" "css" None (3 * 60 * 1000)
                             rejectedCss _ Hentry) eq_refl)).
    vm_compute. reflexivity.
Defined.

Lemma getArtificialDelay_per_uri_witness :
  ("file://foo/bar/test.css" : string) ≠ "foo/test.ts"
  ∧ rejectedCss !! "foo/test.ts" = None
  ∧ (getArtificialDelay {[ "css" ]} {| user := true |} "foo/test.ts" "typescript"
       false None 0 rejectedCss).1 = 0
  ∧ (getArtificialDelay {[ "css" ]} {| user := true |} "foo/test.ts" "typescript"
       false None 0 rejectedCss).2 !! "file://foo/bar/test.css"
    = Some {| rejectionStreak := 12; lastCallAt := 0 |}.
Proof.
  assert (Hne : ("file://foo/bar/test.css" : string) ≠ "foo/test.ts") by discriminate.
  assert (Hfresh : rejectedCss !! "foo/test.ts" = None) by (vm_compute; reflexivity).
  pose proof (getArtificialDelay_per_uri {[ "css" ]} {| user := true |}
                "foo/test.ts" "file://foo/bar/test.css" "typescript" false None 0
                rejectedCss) as [Hfirst Hother].
  split; [exact Hne |]. split; [exact Hfresh |]. split.
  - rewrite (proj2 (Hfirst Hfresh)). vm_compute. reflexivity.
  - rewrite (Hother Hne). vm_compute. reflexivity.
Defined.

(** The scripts of [artificial-delay.test.ts], run on the engine with a
    low-performance set that holds "css" only. *)

Example test_css_rejections_and_idle_reset :
  let call := cssCall "file://foo/bar/test.css" in
  runScript {[ "css" ]}
    (replicate 14 call ++ [Accept; call; Accept] ++ replicate 13 call
     ++ [AdvanceTimersByTime (3 * 60 * 1000); call;
         AdvanceTimersByTime (5 * 60 * 1000); call; Accept; call]) 0 ∅
  = [1000; 1000; 1000; 1000; 1000; 1050; 1100; 1150; 1200; 1250; 1300; 1350; 1400; 1400;
     1000;
     1000; 1000; 1000; 1000; 1000; 1050; 1100; 1150; 1200; 1250; 1300; 1350; 1400;
     1400; 1000; 1000].
Proof. vm_compute. reflexivity. Qed.

Example test_comment_and_file_change :
  let ts nodeType := Call {| user := true |} "file://foo/bar/test.ts" "typescript" false
                       nodeType in
  let other nodeType := Call {| user := true |} "foo/test.ts" "typescript" false
                          nodeType in
  runScript {[ "css" ]}
    (replicate 6 (ts None) ++ [ts (Some "comment"); ts None; ts None]
     ++ [other None; other None; other (Some "comment"); other None; other None;
         AdvanceTimersByTime (3 * 60 * 1000); other None; Accept; other None]) 0 ∅
  = [0; 0; 0; 0; 0; 50; 1100; 150; 200; 0; 0; 1000; 0; 0; 50; 0].
Proof. vm_compute. reflexivity. Qed.

Example test_user_flag_disabled :
  let css := Call {| user := false |} "file://foo/bar/test.css" "css" false None in
  runScript {[ "css" ]}
    (replicate 8 css ++ [Call {| user := false |} "foo/bar/test.go" "go" false None;
                         Call {| user := true |} "file://foo/bar/test.css" "css" true
                           None]) 0 ∅
  = [1000; 1000; 1000; 1000; 1000; 1000; 1000; 1000; 0; 0].
Proof. vm_compute. reflexivity. Qed.

End ArtificialDelay.

(* ===================================================================== *)
(** * The context strategy factory ([context/context-strategy.ts])        *)
(* ===================================================================== *)

Module ContextStrategyFactory.

(** The [ContextStrategy] union type. *)
Inductive ContextStrategy :=
  | LspLight
  | Bfg
  | BfgMixed
  | JaccardSimilarity
  | NewJaccardSimilarity
  | Tsc
  | TscMixed
  | NoStrategy
  | RecentEdits
  | RecentEdits1m
  | RecentEdits5m
  | RecentEditsMixed
  | RecentCopy.

(** The string literal of each member of the union. *)
Definition strategyName (strategy : ContextStrategy) : string :=
  match strategy with
  | LspLight => "lsp-light"
  | Bfg => "bfg"
  | BfgMixed => "bfg-mixed"
  | JaccardSimilarity => "jaccard-similarity"
  | NewJaccardSimilarity => "new-jaccard-similarity"
  | Tsc => "tsc"
  | TscMixed => "tsc-mixed"
  | NoStrategy => "none"
  | RecentEdits => "recent-edits"
  | RecentEdits1m => "recent-edits-1m"
  | RecentEdits5m => "recent-edits-5m"
  | RecentEditsMixed => "recent-edits-mixed"
  | RecentCopy => "recent-copy"
  end.

(** The retriever objects the factory constructs or receives, with their
    constructor arguments. *)
Inductive ContextRetriever :=
  | JaccardSimilarityRetriever
  | LspLightRetriever
  | RecentCopyRetriever (maxAgeMs maxSelections : Z)
  | RecentEditsRetriever (maxAgeMs : Z)
  | BfgRetriever
  | TscRetriever.

Record TextDocument := { languageId : string }.

(** The fields of [DefaultContextStrategyFactory]. *)
Record DefaultContextStrategyFactory := {
  contextStrategy : ContextStrategy;
  localRetriever : option ContextRetriever;
  graphRetriever : option ContextRetriever;
  disposables : list ContextRetriever
}.

(** The value [getStrategy] returns. *)
Record Strategy := { name : ContextStrategy; retrievers : list ContextRetriever }.

Section Factory.

(** [isSupportedForLanguageId] of each retriever class and
    [loadTscRetriever] (which may yield no retriever) are defined outside
    this file of the repository. *)
Variable isSupportedForLanguageId : ContextRetriever → string → bool.
Variable loadTscRetriever : unit → option ContextRetriever.

(** The constructor: the [switch] on the configured strategy. *)
Definition new (strategy : ContextStrategy)
    (createBfgRetriever : option (unit → ContextRetriever))
    : DefaultContextStrategyFactory :=
  let recentEdits maxAgeMs :=
    let r := RecentEditsRetriever maxAgeMs in
    {| contextStrategy := strategy; localRetriever := Some r; graphRetriever := None;
       disposables := [r] |} in
  match strategy with
  | NoStrategy =>
      {| contextStrategy := strategy; localRetriever := None; graphRetriever := None;
         disposables := [] |}
  | RecentEdits => recentEdits (60 * 1000)%Z
  | RecentEdits1m => recentEdits (60 * 1000)%Z
  | RecentEdits5m => recentEdits (60 * 5 * 1000)%Z
  | RecentEditsMixed =>
      {| contextStrategy := strategy;
         localRetriever := Some (RecentEditsRetriever (60 * 1000));
         graphRetriever := Some JaccardSimilarityRetriever;
         disposables := [RecentEditsRetriever (60 * 1000); JaccardSimilarityRetriever] |}
  | TscMixed =>
      let graph := loadTscRetriever () in
      {| contextStrategy := strategy;
         localRetriever := Some JaccardSimilarityRetriever;
         graphRetriever := graph;
         disposables := JaccardSimilarityRetriever :: option_list graph |}
  | Tsc =>
      let graph := loadTscRetriever () in
      {| contextStrategy := strategy; localRetriever := None; graphRetriever := graph;
         disposables := option_list graph |}
  | BfgMixed | Bfg =>
      let graph := (λ create, create ()) <$> createBfgRetriever in
      {| contextStrategy := strategy;
         localRetriever := Some JaccardSimilarityRetriever;
         graphRetriever := graph;
         disposables := JaccardSimilarityRetriever :: option_list graph |}
  | LspLight =>
      {| contextStrategy := strategy;
         localRetriever := Some JaccardSimilarityRetriever;
         graphRetriever := Some LspLightRetriever;
         disposables := [JaccardSimilarityRetriever; LspLightRetriever] |}
  | RecentCopy =>
      let r := RecentCopyRetriever (60 * 1000) 100 in
      {| contextStrategy := strategy; localRetriever := Some r; graphRetriever := None;
         disposables := [r] |}
  | JaccardSimilarity =>
      {| contextStrategy := strategy;
         localRetriever := Some JaccardSimilarityRetriever; graphRetriever := None;
         disposables := [JaccardSimilarityRetriever] |}
  | NewJaccardSimilarity =>
      {| contextStrategy := strategy; localRetriever := None; graphRetriever := None;
         disposables := [] |}
  end.

(** [this.graphRetriever?.isSupportedForLanguageId(document.languageId)]:
    falsy when there is no graph retriever. *)
Definition graphSupports (factory : DefaultContextStrategyFactory)
    (document : TextDocument) : bool :=
  match graphRetriever factory with
  | Some graph => isSupportedForLanguageId graph (languageId document)
  | None => false
  end.

(** [retrievers.push(r)] under the guard [if (r)]. *)
Definition push (retrievers : list ContextRetriever) (r : option ContextRetriever)
    : list ContextRetriever :=
  retrievers ++ option_list r.

Definition pushGraphIfSupported (factory : DefaultContextStrategyFactory)
    (document : TextDocument) (retrievers : list ContextRetriever)
    : list ContextRetriever :=
  if graphSupports factory document then push retrievers (graphRetriever factory)
  else retrievers.

Definition getStrategy (factory : DefaultContextStrategyFactory)
    (document : TextDocument) : Strategy :=
  let retrievers :=
    match contextStrategy factory with
    | NoStrategy => []
    | LspLight =>
        push (pushGraphIfSupported factory document []) (localRetriever factory)
    | Bfg =>
        if graphSupports factory document then push [] (graphRetriever factory)
        else push [] (localRetriever factory)
    | Tsc | TscMixed | BfgMixed =>
        push (pushGraphIfSupported factory document []) (localRetriever factory)
    | JaccardSimilarity | RecentEdits | RecentEdits1m | RecentEdits5m | RecentCopy =>
        push [] (localRetriever factory)
    | RecentEditsMixed =>
        pushGraphIfSupported factory document (push [] (localRetriever factory))
    | NewJaccardSimilarity => []
    end in
  {| name := contextStrategy factory; retrievers := retrievers |}.

(** The composition table of the strategies, row by row, written with the
    retrievers themselves: [bfg] and [tsc] are the graph retrievers that
    the host and the loader provide, if any, and [supports] tells whether
    a retriever supports the document's language.  The rows for "tsc" and
    "new-jaccard-similarity" are not part of the table of the
    specification; they record that "tsc" has no local retriever to fall
    back to and that "new-jaccard-similarity" has no retriever at all. *)
Definition compositionTable (strategy : ContextStrategy)
    (bfg tsc : option ContextRetriever) (supports : ContextRetriever → bool)
    : list ContextRetriever :=
  let graphThenLocal (graph : option ContextRetriever) (local : ContextRetriever) :=
    match graph with
    | Some g => if supports g then [g; local] else [local]
    | None => [local]
    end in
  match strategy with
  | NoStrategy => []
  | JaccardSimilarity => [JaccardSimilarityRetriever]
  | RecentCopy => [RecentCopyRetriever 60000 100]
  | RecentEdits | RecentEdits1m => [RecentEditsRetriever 60000]
  | RecentEdits5m => [RecentEditsRetriever 300000]
  | LspLight => graphThenLocal (Some LspLightRetriever) JaccardSimilarityRetriever
  | Bfg =>
      match bfg with
      | Some g => if supports g then [g] else [JaccardSimilarityRetriever]
      | None => [JaccardSimilarityRetriever]
      end
  | BfgMixed => graphThenLocal bfg JaccardSimilarityRetriever
  | TscMixed => graphThenLocal tsc JaccardSimilarityRetriever
  | RecentEditsMixed =>
      if supports JaccardSimilarityRetriever
      then [RecentEditsRetriever 60000; JaccardSimilarityRetriever]
      else [RecentEditsRetriever 60000]
  | Tsc =>
      match tsc with
      | Some g => if supports g then [g] else []
      | None => []
      end
  | NewJaccardSimilarity => []
  end.

(** ** Verified properties of the factory *)

Lemma getStrategy_name factory document :
  name (getStrategy factory document) = contextStrategy factory.
Proof. reflexivity. Qed.

Lemma new_contextStrategy strategy createBfgRetriever :
  contextStrategy (new strategy createBfgRetriever) = strategy.
Proof. destruct strategy; reflexivity. Qed.

Lemma graphSupports_has_graph factory document :
  graphSupports factory document = true →
  ∃ g, graphRetriever factory = Some g
       ∧ isSupportedForLanguageId g (languageId document) = true.
Proof.
  unfold graphSupports. destruct (graphRetriever factory) as [g|]; [eauto | discriminate].
Qed.

(** C3: for every strategy the factory can be configured with,
    [getStrategy] returns the list the composition table prescribes: none
    for "none"; the local retriever alone for "jaccard-similarity",
    "recent-copy" and the "recent-edits" variants; graph then local, or
    local alone, for "lsp-light"; exactly one of graph and local for
    "bfg"; both retrievers, or the local one alone, for the mixed
    strategies, according to whether the graph retriever supports the
    document's language (a graph retriever that was not provided
    supports none). *)
Theorem getStrategy_composition_table strategy createBfgRetriever document :
  retrievers (getStrategy (new strategy createBfgRetriever) document)
  = compositionTable strategy
      ((λ create, create ()) <$> createBfgRetriever)
      (loadTscRetriever ())
      (λ retriever, isSupportedForLanguageId retriever (languageId document)).
Proof.
  unfold getStrategy, pushGraphIfSupported, graphSupports, push.
  rewrite new_contextStrategy.
  destruct strategy; cbn;
    try destruct createBfgRetriever as [create|];
    try destruct (loadTscRetriever ()) as [g|]; cbn;
    repeat match goal with
           | |- context [isSupportedForLanguageId ?r ?l] =>
               destruct (isSupportedForLanguageId r l)
           end;
    reflexivity.
Qed.

(** C10: the name [getStrategy] returns is the strategy the factory was
    configured with, and a factory configured with
    "new-jaccard-similarity" returns no retriever for any document. *)
Theorem getStrategy_name_and_new_jaccard strategy createBfgRetriever document :
  name (getStrategy (new strategy createBfgRetriever) document) = strategy
  ∧ strategyName (name (getStrategy (new strategy createBfgRetriever) document))
    = strategyName strategy
  ∧ retrievers (getStrategy (new NewJaccardSimilarity createBfgRetriever) document) = [].
Proof.
  rewrite getStrategy_name, new_contextStrategy.
  split; [reflexivity |]. split; reflexivity.
Qed.

End Factory.

(** ** Concrete factories *)

(** A graph retriever that supports TypeScript only; the other retrievers
    support every language. *)
Definition supportsTypescriptOnly (r : ContextRetriever) (languageId : string) : bool :=
  match r with
  | BfgRetriever | TscRetriever | LspLightRetriever => String.eqb languageId "typescript"
  | _ => true
  end.

Example bfg_mixed_supported :
  retrievers (getStrategy supportsTypescriptOnly
                (new (λ _, None) BfgMixed (Some (λ _, BfgRetriever)))
                {| languageId := "typescript" |})
  = [BfgRetriever; JaccardSimilarityRetriever].
Proof. reflexivity. Qed.

Example bfg_mixed_unsupported :
  retrievers (getStrategy supportsTypescriptOnly
                (new (λ _, None) BfgMixed (Some (λ _, BfgRetriever)))
                {| languageId := "css" |})
  = [JaccardSimilarityRetriever].
Proof. reflexivity. Qed.

Example bfg_supported_is_exclusive :
  retrievers (getStrategy supportsTypescriptOnly
                (new (λ _, None) Bfg (Some (λ _, BfgRetriever)))
                {| languageId := "typescript" |})
  = [BfgRetriever].
Proof. reflexivity. Qed.

Example bfg_unsupported_falls_back :
  retrievers (getStrategy supportsTypescriptOnly
                (new (λ _, None) Bfg (Some (λ _, BfgRetriever)))
                {| languageId := "css" |})
  = [JaccardSimilarityRetriever].
Proof. reflexivity. Qed.

Example recent_edits_mixed_order :
  retrievers (getStrategy supportsTypescriptOnly
                (new (λ _, None) RecentEditsMixed None)
                {| languageId := "css" |})
  = [RecentEditsRetriever 60000; JaccardSimilarityRetriever].
Proof. reflexivity. Qed.

Example tsc_without_retriever :
  retrievers (getStrategy supportsTypescriptOnly
                (new (λ _, None) Tsc None) {| languageId := "typescript" |})
  = [].
Proof. reflexivity. Qed.

(** ** Further properties of the factory *)

(** [dispose()]: the retrievers released, in the order they were pushed. *)
Definition dispose (factory : DefaultContextStrategyFactory) : list ContextRetriever :=
  disposables factory.

Lemma getStrategy_sources_aux isSupportedForLanguageId factory document :
  (∀ r, r ∈ retrievers (getStrategy isSupportedForLanguageId factory document) →
        localRetriever factory = Some r
        ∨ (graphRetriever factory = Some r
           ∧ isSupportedForLanguageId r (languageId document) = true))
  ∧ length (retrievers (getStrategy isSupportedForLanguageId factory document)) ≤ 2.
Proof.
  unfold getStrategy, pushGraphIfSupported, push, graphSupports. cbn [retrievers].
  destruct (localRetriever factory) as [l|];
    destruct (graphRetriever factory) as [g|];
    [destruct (isSupportedForLanguageId g (languageId document)) eqn:Hsupported |
     | destruct (isSupportedForLanguageId g (languageId document)) eqn:Hsupported | ];
    destruct (contextStrategy factory); cbn; (split; [| lia]);
    intros r Hr;
    repeat (apply elem_of_cons in Hr as [-> | Hr]; [eauto |]);
    apply elem_of_nil in Hr; contradiction.
Qed.

(** X16: Whatever the fields of a factory hold, a retriever that [getStrategy]
    returns is the factory's local retriever or its graph retriever, the
    latter only when it supports the document's language; and at most two
    retrievers are returned. *)
Theorem getStrategy_sources isSupportedForLanguageId factory document :
  (∀ r, r ∈ retrievers (getStrategy isSupportedForLanguageId factory document) →
        localRetriever factory = Some r
        ∨ (graphRetriever factory = Some r
           ∧ isSupportedForLanguageId r (languageId document) = true))
  ∧ length (retrievers (getStrategy isSupportedForLanguageId factory document)) ≤ 2.
Proof. apply getStrategy_sources_aux. Qed.

(** X17: A factory built by the constructor releases exactly its local and its
    graph retriever, so every retriever that [getStrategy] hands out is
    released by [dispose()]. *)
Theorem returned_retrievers_are_disposed isSupportedForLanguageId loadTscRetriever
    strategy createBfgRetriever document :
  let factory := new loadTscRetriever strategy createBfgRetriever in
  dispose factory
  = option_list (localRetriever factory) ++ option_list (graphRetriever factory)
  ∧ ∀ r, r ∈ retrievers (getStrategy isSupportedForLanguageId factory document) →
         r ∈ dispose factory.
Proof.
  intros factory.
  assert (Hdisposed : dispose factory
                      = option_list (localRetriever factory)
                        ++ option_list (graphRetriever factory)).
  { subst factory. unfold dispose. destruct strategy; cbn;
      try reflexivity;
      try (destruct (loadTscRetriever ()); reflexivity);
      destruct createBfgRetriever; reflexivity. }
  split; [exact Hdisposed |].
  intros r Hr. rewrite Hdisposed.
  destruct (proj1 (getStrategy_sources_aux isSupportedForLanguageId factory document)
              r Hr) as [Hlocal | [Hgraph _]].
  - rewrite Hlocal. apply elem_of_app. left. apply list_elem_of_here.
  - rewrite Hgraph. apply elem_of_app. right. apply list_elem_of_here.
Qed.

(** X18: For a factory built by the constructor and a document whose language
    the graph retriever does not support (or without a graph retriever),
    every strategy falls back to the local retriever alone, and returns
    nothing when it has none. *)
Theorem getStrategy_without_graph_support isSupportedForLanguageId loadTscRetriever
    strategy createBfgRetriever document :
  let factory := new loadTscRetriever strategy createBfgRetriever in
  graphSupports isSupportedForLanguageId factory document = false →
  retrievers (getStrategy isSupportedForLanguageId factory document)
  = option_list (localRetriever factory).
Proof.
  intros factory Hunsupported. subst factory.
  unfold getStrategy, pushGraphIfSupported. rewrite Hunsupported.
  rewrite new_contextStrategy. destruct strategy; reflexivity.
Qed.

Lemma getStrategy_without_graph_support_witness :
  retrievers (getStrategy supportsTypescriptOnly
                (new (λ _, Some TscRetriever) Tsc None) {| languageId := "css" |})
  = [].
Proof.
  apply (getStrategy_without_graph_support supportsTypescriptOnly
           (λ _, Some TscRetriever) Tsc None {| languageId := "css" |}).
  reflexivity.
Defined.

End ContextStrategyFactory.

(* ===================================================================== *)
(** * The multi-provider comparison dispatcher                            *)
(* ===================================================================== *)

Module MultiModel.

(** The settled state of a promise. *)
Inductive Promise (A : Type) :=
  | Fulfilled (value : A)
  | Rejected (reason : string).
Arguments Fulfilled {A} value.
Arguments Rejected {A} reason.

Definition tab : string := String (Ascii.ascii_of_nat 9) EmptyString.
Definition newline : string := String (Ascii.ascii_of_nat 10) EmptyString.

Record InlineCompletionItem := { insertText : option string }.
Record InlineCompletionList := { items : list InlineCompletionItem }.

Inductive InlineCompletionTriggerKind := Invoke | Automatic.

Record InlineCompletionContext := {
  triggerKind : InlineCompletionTriggerKind;
  selectedCompletionInfo : option string
}.

(** [vscode.window.activeTextEditor], as far as the dispatcher reads it. *)
Record TextEditor := { document : string; selectionActive : Z * Z }.

(** [provideInlineCompletionItems] of a provider instance: it is defined
    outside these files; it may throw, resolve to nothing or to a list. *)
Definition ProvideInlineCompletionItems : Type :=
  string → Z * Z → InlineCompletionContext → Promise (option InlineCompletionList).

Record providerConfig := {
  providerName : string;
  modelName : string;
  contextStrategy : string;
  completionsProvider : ProvideInlineCompletionItems
}.

Record MultiModelCompletionsResults := {
  provider : string;
  model : string;
  resultContextStrategy : string;
  completion : string
}.

(** [result?.items[0].insertText?.toString() || '']: an absent result
    short-circuits to the empty string; reading [insertText] of the first
    element of an empty [items] array throws. *)
Definition manuallyGetCompletionItemsForProvider (config : providerConfig)
    (document : string) (position : Z * Z) (context : InlineCompletionContext)
    : Promise MultiModelCompletionsResults :=
  let resolve text :=
    Fulfilled {| provider := providerName config; model := modelName config;
                 resultContextStrategy := contextStrategy config;
                 completion := text |} in
  match completionsProvider config document position context with
  | Rejected reason => Rejected reason
  | Fulfilled None => resolve ""
  | Fulfilled (Some result) =>
      match items result with
      | [] => Rejected "TypeError: Cannot read properties of undefined (reading 'insertText')"
      | item :: _ => resolve (default "" (insertText item))
      end
  end.

(** [Promise.all]: fulfilled with every value, in order, when every promise
    is fulfilled, rejected as soon as one is.  The reason kept is that of
    the first rejected promise of the list (which one settles first in
    time is outside this model). *)
Fixpoint promiseAll {A : Type} (promises : list (Promise A)) : Promise (list A) :=
  match promises with
  | [] => Fulfilled []
  | Rejected reason :: _ => Rejected reason
  | Fulfilled value :: rest =>
      match promiseAll rest with
      | Fulfilled values => Fulfilled (value :: values)
      | Rejected reason => Rejected reason
      end
  end.

(** One completion pull per configured provider, pushed in order. *)
Definition allPromises (allCompletionsProvidersConfig : list providerConfig)
    (editor : TextEditor) : list (Promise MultiModelCompletionsResults) :=
  let context := {| triggerKind := Automatic; selectedCompletionInfo := None |} in
  map (λ config,
         manuallyGetCompletionItemsForProvider config (document editor)
           (selectionActive editor) context)
      allCompletionsProvidersConfig.

Definition reportLine (result : MultiModelCompletionsResults) : string :=
  "Model: " +:+ model result +:+ tab +:+ " Context: " +:+ resultContextStrategy result
  +:+ " " +:+ newline +:+ completion result +:+ newline +:+ newline.

Definition completionsOutput (completions : list MultiModelCompletionsResults) : string :=
  foldl (λ output result, output +:+ reportLine result) "" completions.

(** The command body.  [Fulfilled None]: no active editor, nothing logged;
    [Fulfilled (Some output)]: [output] was passed to [logDebug];
    [Rejected]: the awaited [Promise.all] rejected and nothing was
    logged. *)
Definition triggerMultiModelAutocompletionsForComparison
    (allCompletionsProvidersConfig : list providerConfig)
    (activeEditor : option TextEditor) : Promise (option string) :=
  match activeEditor with
  | None => Fulfilled None
  | Some editor =>
      match promiseAll (allPromises allCompletionsProvidersConfig editor) with
      | Rejected reason => Rejected reason
      | Fulfilled completions => Fulfilled (Some (completionsOutput completions))
      end
  end.

(** Failure isolation as a property of a configuration list: whatever a
    provider's own pull resolved to is part of the aggregate. *)
Definition failureIsolated (configs : list providerConfig) (editor : TextEditor) : Prop :=
  ∀ (i : nat) (result : MultiModelCompletionsResults),
    allPromises configs editor !! i = Some (Fulfilled result) →
    ∃ completions,
      promiseAll (allPromises configs editor) = Fulfilled completions
      ∧ completions !! i = Some result.

(** ** Verified properties of the dispatcher *)

Lemma promiseAll_fulfilled {A : Type} (promises : list (Promise A)) (values : list A) :
  promiseAll promises = Fulfilled values ↔ promises = Fulfilled <$> values.
Proof.
  revert values. induction promises as [|p promises IH]; intros values.
  - cbn. split.
    + intros [= <-]. reflexivity.
    + destruct values; [reflexivity | discriminate].
  - destruct p as [value | reason]; cbn.
    + destruct (promiseAll promises) as [rest | reason] eqn:Hrest.
      * split.
        -- intros [= <-]. cbn. f_equal. apply IH. reflexivity.
        -- destruct values as [|v values]; [discriminate |].
           cbn. intros [= <- Heq]. f_equal. f_equal.
           apply IH in Heq. congruence.
      * split; [discriminate |].
        destruct values as [|v values]; [discriminate |].
        cbn. intros [= <- Heq]. apply IH in Heq. discriminate.
    + split; [discriminate |].
      destruct values; discriminate.
Qed.

Lemma promiseAll_rejected {A : Type} (promises : list (Promise A)) i reason :
  promises !! i = Some (Rejected reason) →
  ∃ reason', promiseAll promises = Rejected reason'.
Proof.
  revert i. induction promises as [|p promises IH]; intros i Hi; [discriminate |].
  destruct p as [value | r]; cbn; [| eauto].
  destruct i as [|i]; [discriminate |].
  apply IH in Hi as [reason' ->]. eauto.
Qed.

Lemma allPromises_lookup configs editor i :
  allPromises configs editor !! i
  = (λ config,
       manuallyGetCompletionItemsForProvider config (document editor)
         (selectionActive editor)
         {| triggerKind := Automatic; selectedCompletionInfo := None |})
    <$> configs !! i.
Proof. unfold allPromises. apply list_lookup_fmap. Qed.

(** C4 (amended): the comparison path makes one completion pull per
    configured provider, each depending on its own provider only, and
    joins them with [Promise.all]: the aggregate is fulfilled exactly when
    every branch is, it then holds every provider's result in
    configuration order and the report is logged; as soon as one branch
    fails the aggregate is rejected and nothing is reported. *)
Theorem multi_model_all_or_none configs editor :
  let branches := allPromises configs editor in
  let context := {| triggerKind := Automatic; selectedCompletionInfo := None |} in
  length branches = length configs
  ∧ (∀ i, branches !! i
          = (λ config,
               manuallyGetCompletionItemsForProvider config (document editor)
                 (selectionActive editor) context) <$> configs !! i)
  ∧ (∀ completions,
       promiseAll branches = Fulfilled completions ↔ branches = Fulfilled <$> completions)
  ∧ (∀ completions,
       promiseAll branches = Fulfilled completions →
       triggerMultiModelAutocompletionsForComparison configs (Some editor)
       = Fulfilled (Some (completionsOutput completions)))
  ∧ (∀ i reason,
       branches !! i = Some (Rejected reason) →
       ∃ reason',
         promiseAll branches = Rejected reason'
         ∧ triggerMultiModelAutocompletionsForComparison configs (Some editor)
           = Rejected reason').
Proof.
  intros branches context. subst branches context.
  split; [unfold allPromises; apply length_map |].
  split; [intros i; apply allPromises_lookup |].
  split; [intros completions; apply promiseAll_fulfilled |].
  split.
  - intros completions Hall. cbn. rewrite Hall. reflexivity.
  - intros i reason Hi.
    destruct (promiseAll_rejected _ _ _ Hi) as [reason' Hrej].
    exists reason'. split; [exact Hrej |]. cbn. rewrite Hrej. reflexivity.
Qed.

(** ** A comparison of two providers, one of which fails *)

Definition failingProvider : ProvideInlineCompletionItems :=
  λ _ _ _, Rejected "network error".

Definition answeringProvider (text : string) : ProvideInlineCompletionItems :=
  λ _ _ _, Fulfilled (Some {| items := [ {| insertText := Some text |} ] |}).

Definition comparedProviders : list providerConfig :=
  [ {| providerName := "fireworks"; modelName := "starcoder-hybrid";
       contextStrategy := "jaccard-similarity"; completionsProvider := failingProvider |};
    {| providerName := "anthropic"; modelName := "claude-instant-1.2";
       contextStrategy := "bfg-mixed";
       completionsProvider := answeringProvider "return a + b" |} ].

Definition comparedEditor : TextEditor :=
  {| document := "file://foo/bar/test.ts"; selectionActive := (3, 7)%Z |}.

(** C4 as stated fails: the second provider's pull is fulfilled, yet the
    failure of the first rejects the aggregate and no result is reported. *)
Lemma one_failure_discards_every_result :
  allPromises comparedProviders comparedEditor !! 1%nat
  = Some (Fulfilled {| provider := "anthropic"; model := "claude-instant-1.2";
                       resultContextStrategy := "bfg-mixed";
                       completion := "return a + b" |})
  ∧ triggerMultiModelAutocompletionsForComparison comparedProviders (Some comparedEditor)
    = Rejected "network error"
  ∧ ¬ failureIsolated comparedProviders comparedEditor.
Proof.
  split; [reflexivity |]. split; [reflexivity |].
  intros Hisolated.
  destruct (Hisolated 1%nat _ eq_refl) as (completions & Hall & _).
  discriminate Hall.
Qed.

Example all_providers_answer :
  triggerMultiModelAutocompletionsForComparison
    [ {| providerName := "anthropic"; modelName := "claude-instant-1.2";
         contextStrategy := "bfg-mixed";
         completionsProvider := answeringProvider "return a + b" |};
      {| providerName := "fireworks"; modelName := "starcoder-hybrid";
         contextStrategy := "none";
         completionsProvider := λ _ _ _, Fulfilled None |} ]
    (Some comparedEditor)
  = Fulfilled
      (Some ("Model: claude-instant-1.2" +:+ tab +:+ " Context: bfg-mixed " +:+ newline
             +:+ "return a + b" +:+ newline +:+ newline
             +:+ "Model: starcoder-hybrid" +:+ tab +:+ " Context: none " +:+ newline
             +:+ newline +:+ newline)).
Proof. reflexivity. Qed.

Example empty_items_reject_the_aggregate :
  triggerMultiModelAutocompletionsForComparison
    [ {| providerName := "anthropic"; modelName := "claude-instant-1.2";
         contextStrategy := "bfg-mixed";
         completionsProvider := answeringProvider "return a + b" |};
      {| providerName := "fireworks"; modelName := "starcoder-hybrid";
         contextStrategy := "none";
         completionsProvider := λ _ _ _, Fulfilled (Some {| items := [] |}) |} ]
    (Some comparedEditor)
  = Rejected "TypeError: Cannot read properties of undefined (reading 'insertText')".
Proof. reflexivity. Qed.

(** ** Further properties of the dispatcher *)

Lemma manuallyGet_labels config document position context result :
  manuallyGetCompletionItemsForProvider config document position context
  = Fulfilled result →
  provider result = providerName config
  ∧ model result = modelName config
  ∧ resultContextStrategy result = contextStrategy config.
Proof.
  unfold manuallyGetCompletionItemsForProvider.
  destruct (completionsProvider config document position context) as [[list|]|reason].
  - destruct (items list) as [|item rest]; [discriminate |].
    intros [= <-]. repeat split.
  - intros [= <-]. repeat split.
  - discriminate.
Qed.

(** X23: When the aggregate is fulfilled, its results carry the provider, model
    and context strategy of the configured providers, one result per
    provider and in configuration order. *)
Theorem results_follow_configuration configs editor completions :
  promiseAll (allPromises configs editor) = Fulfilled completions →
  map provider completions = map providerName configs
  ∧ map model completions = map modelName configs
  ∧ map resultContextStrategy completions = map contextStrategy configs.
Proof.
  intros Hall. apply promiseAll_fulfilled in Hall. unfold allPromises in Hall.
  revert completions Hall.
  induction configs as [|config configs IH]; intros completions Hall.
  - destruct completions; [repeat split | discriminate].
  - destruct completions as [|result completions]; [discriminate |].
    cbn in Hall. injection Hall as Hhead Htail.
    apply manuallyGet_labels in Hhead as (Hp & Hm & Hs).
    destruct (IH completions Htail) as (IHp & IHm & IHs).
    cbn. rewrite Hp, Hm, Hs, IHp, IHm, IHs. repeat split.
Qed.

Lemma results_follow_configuration_witness :
  map model
    [ {| provider := "anthropic"; model := "claude-instant-1.2";
         resultContextStrategy := "bfg-mixed"; completion := "return a + b" |} ]
  = map modelName
      [ {| providerName := "anthropic"; modelName := "claude-instant-1.2";
           contextStrategy := "bfg-mixed";
           completionsProvider := answeringProvider "return a + b" |} ].
Proof.
  exact (proj1 (proj2 (results_follow_configuration
                         [ {| providerName := "anthropic";
                              modelName := "claude-instant-1.2";
                              contextStrategy := "bfg-mixed";
                              completionsProvider := answeringProvider "return a + b" |} ]
                         comparedEditor _ eq_refl))).
Defined.

End MultiModel.

(* ===================================================================== *)
(** * Registration of the completion provider and its document filters    *)
(* ===================================================================== *)

Module CreateInlineCompletionItemProvider.

(** The configuration fields the registration reads. *)
Record Configuration := {
  isRunningInsideAgent : bool;
  autocompleteLanguages : gmap string bool;
  autocompleteFirstCompletionTimeout : Z
}.

Record AuthStatus := { authenticated : bool }.

(** A provider as [createProvider()] emits it. *)
Record Provider := { id : string; legacyModel : string }.

Record DocumentFilter := {
  language : option string;
  scheme : option string;
  notebookType : option string
}.

(** The arguments an [InlineCompletionItemProvider] is constructed with. *)
Record InlineCompletionItemProvider := {
  triggerDelay : Z;
  provider : Provider;
  firstCompletionTimeout : Z;
  insideAgent : bool
}.

(** What gets registered with the editor. *)
Inductive Disposable :=
  | RegisterCommand (command : string) (target : InlineCompletionItemProvider)
  | RegisterInlineCompletionItemProvider (selector : list DocumentFilter)
      (target : InlineCompletionItemProvider)
  | RegisterNoopCompletionItemProvider
  | RegisterAutocompleteTraceView (target : InlineCompletionItemProvider)
  | CompletionsProvider (target : InlineCompletionItemProvider).

(** What one emission of configuration and auth status leads to. *)
Inductive Registration :=
  | NEVER
  | Registered (disposables : list Disposable)
  | Throws (message : string).

Definition DISABLED_LANGUAGES : gset string := {[ "scminput" ]}.

(** The property names that every plain object inherits from
    [Object.prototype]. *)
Definition objectPrototypeMembers : list string :=
  [ "constructor"; "__defineGetter__"; "__defineSetter__"; "hasOwnProperty";
    "__lookupGetter__"; "__lookupSetter__"; "isPrototypeOf"; "propertyIsEnumerable";
    "toString"; "valueOf"; "__proto__"; "toLocaleString" ].

(** What reading a property of the configuration object gives: an own
    boolean entry, a member inherited from [Object.prototype] (a function,
    or the prototype object for "__proto__"), or [undefined]. *)
Inductive ConfigValue :=
  | OwnEntry (entry : bool)
  | InheritedMember (name : string)
  | Undefined.

(** Truthiness: an inherited member is an object, hence truthy. *)
Definition truthy (value : ConfigValue) : bool :=
  match value with
  | OwnEntry entry => entry
  | InheritedMember _ => true
  | Undefined => false
  end.

(** [key in object] for a plain object with the own entries [object]: own
    keys and the members of [Object.prototype]. *)
Definition hasProperty (object : gmap string bool) (key : string) : bool :=
  bool_decide (is_Some (object !! key)) || bool_decide (key ∈ objectPrototypeMembers).

(** [object[key]]: an own entry shadows an inherited member. *)
Definition getProperty (object : gmap string bool) (key : string) : ConfigValue :=
  match object !! key with
  | Some entry => OwnEntry entry
  | None =>
      if bool_decide (key ∈ objectPrototypeMembers) then InheritedMember key
      else Undefined
  end.

(** The [enabled] constant of the [flatMap] callback; [perLanguageConfig]
    is the plain object the rest pattern builds from the own entries other
    than "*". *)
Definition enabled (autocompleteLanguages : gmap string bool) (language : string)
    : ConfigValue :=
  let isEnabledForAll := getProperty autocompleteLanguages "*" in
  let perLanguageConfig := delete "*" autocompleteLanguages in
  if negb (bool_decide (language ∈ DISABLED_LANGUAGES))
     && hasProperty perLanguageConfig language
  then getProperty perLanguageConfig language
  else isEnabledForAll.

(** [languageIds] is the answer of [vscode.languages.getLanguages()]. *)
Definition getInlineCompletionItemProviderFilters
    (autocompleteLanguages : gmap string bool) (languageIds : list string)
    : list DocumentFilter :=
  flat_map
    (λ language,
       if truthy (enabled autocompleteLanguages language)
       then [ {| language := Some language; scheme := Some "file";
                 notebookType := None |} ]
       else [])
    languageIds.

(** The enablement of a language in the words of the specification, on the
    configuration record itself: the language's own entry when the language
    is not disabled, is not the wildcard key and has an entry; the
    wildcard's value otherwise. *)
Definition enablement (autocompleteLanguages : gmap string bool) (language : string)
    : option bool :=
  match autocompleteLanguages !! language with
  | Some entry =>
      if bool_decide (language = "scminput") || bool_decide (language = "*")
      then autocompleteLanguages !! "*"
      else Some entry
  | None => autocompleteLanguages !! "*"
  end.

Section Registration.

(** [JSON.stringify(config, null, 2)]. *)
Variable stringify : Configuration → string.

(** The body of the [mergeMap] callback of
    [createInlineCompletionItemProvider] for one emission: [created] is the
    value emitted by [createProvider()], [triggerDelaySetting] the
    [cody.autocomplete.triggerDelay] setting. *)
Definition createInlineCompletionItemProvider (config : Configuration)
    (authStatus : AuthStatus) (languageIds : list string) (created : option Provider)
    (triggerDelaySetting : option Z) : Registration :=
  if negb (authenticated authStatus) then
    if isRunningInsideAgent config then Registered [RegisterNoopCompletionItemProvider]
    else NEVER
  else
    let documentFilters :=
      getInlineCompletionItemProviderFilters (autocompleteLanguages config) languageIds in
    match created with
    | Some provider =>
        let completionsProvider :=
          {| triggerDelay := default 0%Z triggerDelaySetting;
             provider := provider;
             firstCompletionTimeout := autocompleteFirstCompletionTimeout config;
             insideAgent := isRunningInsideAgent config |} in
        Registered
          [ RegisterCommand "cody.autocomplete.manual-trigger" completionsProvider;
            RegisterInlineCompletionItemProvider
              ({| language := None; scheme := None; notebookType := Some "*" |}
               :: documentFilters)
              completionsProvider;
            RegisterAutocompleteTraceView completionsProvider;
            CompletionsProvider completionsProvider ]
    | None =>
        if isRunningInsideAgent config then
          Throws ("Can't register completion provider because `providerConfig` evaluated to `null`. To fix this problem, debug why createProvider returned null instead of ProviderConfig. To further debug this problem, here is the configuration:"
                  +:+ String (Ascii.ascii_of_nat 10) EmptyString +:+ stringify config)
        else Registered []
    end.

(** ** Verified properties of the registration *)

(** C5: for an authenticated user whose provider creation evaluated to
    null, registration throws when running inside the agent, and registers
    nothing, without throwing, outside of it. *)
Theorem null_provider_registration config languageIds triggerDelaySetting :
  let outcome :=
    createInlineCompletionItemProvider config {| authenticated := true |} languageIds
      None triggerDelaySetting in
  (isRunningInsideAgent config = true → ∃ message, outcome = Throws message)
  ∧ (isRunningInsideAgent config = false → outcome = Registered []).
Proof.
  intros outcome. subst outcome. unfold createInlineCompletionItemProvider. cbn.
  split; intros ->; [eexists |]; reflexivity.
Qed.

End Registration.

(** An [option] entry as a value read from the object. *)
Definition ofEntry (entry : option bool) : ConfigValue :=
  match entry with
  | Some b => OwnEntry b
  | None => Undefined
  end.

Lemma not_inherited_scminput : "scminput" ∉ objectPrototypeMembers.
Proof.
  intros Hin. unfold objectPrototypeMembers in Hin.
  repeat (apply elem_of_cons in Hin as [Hin | Hin]; [discriminate Hin |]).
  apply elem_of_nil in Hin. exact Hin.
Qed.

Lemma not_inherited_wildcard : "*" ∉ objectPrototypeMembers.
Proof.
  intros Hin. unfold objectPrototypeMembers in Hin.
  repeat (apply elem_of_cons in Hin as [Hin | Hin]; [discriminate Hin |]).
  apply elem_of_nil in Hin. exact Hin.
Qed.

Lemma getProperty_wildcard (object : gmap string bool) :
  getProperty object "*" = ofEntry (object !! "*").
Proof.
  unfold getProperty. destruct (object !! "*"); [reflexivity |].
  rewrite (bool_decide_eq_false_2 _ not_inherited_wildcard). reflexivity.
Qed.

(** For a language with an own entry, or whose id is not the name of a
    member of [Object.prototype], the code computes the enablement. *)
Lemma enabled_enablement autocompleteLanguages language :
  is_Some (autocompleteLanguages !! language) ∨ language ∉ objectPrototypeMembers →
  enabled autocompleteLanguages language
  = ofEntry (enablement autocompleteLanguages language).
Proof.
  intros Hplain.
  unfold enabled, enablement, DISABLED_LANGUAGES, hasProperty.
  rewrite getProperty_wildcard.
  destruct (decide (language = "scminput")) as [-> | Hscm].
  - rewrite (bool_decide_eq_true_2 ("scminput" ∈ _)) by (apply elem_of_singleton_2; reflexivity).
    cbn. destruct (_ !! "scminput"); reflexivity.
  - rewrite (bool_decide_eq_false_2 (language ∈ _))
      by (intros Hin; apply elem_of_singleton_1 in Hin; contradiction).
    rewrite (bool_decide_eq_false_2 (language = "scminput")) by exact Hscm.
    cbn [negb andb orb].
    destruct (decide (language = "*")) as [-> | Hstar].
    + rewrite lookup_delete_eq.
      rewrite (bool_decide_eq_false_2 (is_Some None)) by (intros [? ?]; discriminate).
      rewrite (bool_decide_eq_false_2 _ not_inherited_wildcard).
      rewrite (bool_decide_eq_true_2 ("*" = "*")) by reflexivity.
      cbn. destruct (_ !! "*"); reflexivity.
    + unfold getProperty. rewrite lookup_delete_ne by congruence.
      rewrite (bool_decide_eq_false_2 (language = "*")) by exact Hstar.
      destruct (autocompleteLanguages !! language) as [entry|] eqn:Hentry.
      * rewrite (bool_decide_eq_true_2 (is_Some (Some entry))) by eauto. reflexivity.
      * destruct Hplain as [[? Habsurd] | Hplain]; [discriminate Habsurd |].
        rewrite (bool_decide_eq_false_2 (is_Some None)) by (intros [? ?]; discriminate).
        rewrite (bool_decide_eq_false_2 _ Hplain). reflexivity.
Qed.

(** A language without an own entry whose id names a member of
    [Object.prototype] is found by [in] and reads the inherited member. *)
Lemma enabled_inherited autocompleteLanguages language :
  autocompleteLanguages !! language = None →
  language ∈ objectPrototypeMembers →
  enabled autocompleteLanguages language = InheritedMember language.
Proof.
  intros Hentry Hmember.
  assert (Hscm : language ≠ "scminput")
    by (intros ->; exact (not_inherited_scminput Hmember)).
  assert (Hstar : language ≠ "*")
    by (intros ->; exact (not_inherited_wildcard Hmember)).
  unfold enabled, DISABLED_LANGUAGES, hasProperty, getProperty.
  rewrite (bool_decide_eq_false_2 (language ∈ _))
    by (intros Hin; apply elem_of_singleton_1 in Hin; contradiction).
  rewrite lookup_delete_ne by congruence. rewrite Hentry.
  rewrite (bool_decide_eq_true_2 _ Hmember), orb_true_r. reflexivity.
Qed.

Lemma truthy_ofEntry entry : truthy (ofEntry entry) = true ↔ entry = Some true.
Proof. destruct entry as [[|]|]; cbn; split; congruence. Qed.

Lemma filters_elem autocompleteLanguages languageIds filter :
  filter ∈ getInlineCompletionItemProviderFilters autocompleteLanguages languageIds
  ↔ ∃ language,
      language ∈ languageIds
      ∧ truthy (enabled autocompleteLanguages language) = true
      ∧ filter = {| language := Some language; scheme := Some "file";
                    notebookType := None |}.
Proof.
  unfold getInlineCompletionItemProviderFilters.
  rewrite list_elem_of_In, in_flat_map. split.
  - intros (language & Hin & Hfilter). exists language.
    rewrite list_elem_of_In. split; [exact Hin |].
    destruct (truthy _); [| destruct Hfilter].
    destruct Hfilter as [<- | []]. split; reflexivity.
  - intros (language & Hin & Htruthy & ->). exists language.
    rewrite <- list_elem_of_In. split; [exact Hin |].
    rewrite Htruthy. left. reflexivity.
Qed.

(** C9: the claim gives a language that has no entry in the per-language
    configuration the wildcard's value.  For the language id "constructor"
    the code does otherwise: [in] finds the member that every object
    inherits from [Object.prototype], the inherited member is truthy, and
    the language gets a filter although the wildcard is off and the
    enablement is false. *)
Theorem inherited_member_gets_a_filter :
  getInlineCompletionItemProviderFilters {[ "*" := false ]} ["constructor"; "go"]
  = [ {| language := Some "constructor"; scheme := Some "file"; notebookType := None |} ]
  ∧ enablement {[ "*" := false ]} "constructor" = Some false
  ∧ enablement {[ "*" := false ]} "go" = Some false.
Proof. vm_compute. repeat split. Qed.

(** ** Concrete registrations *)

Definition agentConfiguration : Configuration :=
  {| isRunningInsideAgent := true;
     autocompleteLanguages := {[ "*" := true; "scminput" := false; "python" := false ]};
     autocompleteFirstCompletionTimeout := 3500 |}.

Lemma null_provider_registration_witness :
  isRunningInsideAgent agentConfiguration = true
  ∧ ∃ message,
      createInlineCompletionItemProvider (λ _, "{}") agentConfiguration
        {| authenticated := true |} ["python"; "go"] None None
      = Throws message.
Proof.
  split; [reflexivity |].
  exact (proj1 (null_provider_registration (λ _, "{}") agentConfiguration
                  ["python"; "go"] None) eq_refl).
Defined.

Example unauthenticated_agent_registers_noop :
  createInlineCompletionItemProvider (λ _, "{}") agentConfiguration
    {| authenticated := false |} ["python"; "go"] None None
  = Registered [RegisterNoopCompletionItemProvider].
Proof. reflexivity. Qed.

(** An explicit entry for "scminput" is ignored: the wildcard decides. *)
Example filters_of_agentConfiguration :
  getInlineCompletionItemProviderFilters (autocompleteLanguages agentConfiguration)
    ["python"; "scminput"; "go"]
  = [ {| language := Some "scminput"; scheme := Some "file"; notebookType := None |};
      {| language := Some "go"; scheme := Some "file"; notebookType := None |} ].
Proof. vm_compute. reflexivity. Qed.

(** ** Further properties of the filters and of the registration *)

Definition languageFilter (language : string) : DocumentFilter :=
  {| language := Some language; scheme := Some "file"; notebookType := None |}.

(** X19: The filters are the enabled languages of the editor, in the editor's
    order and as often as the editor lists them; there are never more
    filters than languages. *)
Theorem filters_in_order autocompleteLanguages languageIds :
  getInlineCompletionItemProviderFilters autocompleteLanguages languageIds
  = map languageFilter
      (List.filter (λ language, truthy (enabled autocompleteLanguages language))
         languageIds)
  ∧ length (getInlineCompletionItemProviderFilters autocompleteLanguages languageIds)
    ≤ length languageIds.
Proof.
  unfold getInlineCompletionItemProviderFilters.
  induction languageIds as [|language languageIds [IHeq IHlen]].
  - split; [reflexivity | cbn; lia].
  - cbn [flat_map List.filter].
    destruct (truthy (enabled autocompleteLanguages language)).
    + cbn. split; [f_equal; exact IHeq | lia].
    + cbn. split; [exact IHeq | lia].
Qed.

(** X20: An own entry of a language other than "scminput" and "*" overrides the
    wildcard in both directions: the language gets a filter exactly when
    the editor lists it and its entry is [true]. *)
Theorem own_entry_overrides_wildcard autocompleteLanguages languageIds language entry :
  language ≠ "scminput" →
  language ≠ "*" →
  autocompleteLanguages !! language = Some entry →
  languageFilter language
  ∈ getInlineCompletionItemProviderFilters autocompleteLanguages languageIds
  ↔ language ∈ languageIds ∧ entry = true.
Proof.
  intros Hscm Hstar Hentry.
  assert (Henabled : enabled autocompleteLanguages language = OwnEntry entry).
  { rewrite enabled_enablement by (left; rewrite Hentry; eauto).
    unfold enablement. rewrite Hentry.
    rewrite (bool_decide_eq_false_2 _ Hscm), (bool_decide_eq_false_2 _ Hstar).
    reflexivity. }
  rewrite filters_elem. split.
  - intros (language' & Hin & Hon & [= <-]).
    rewrite Henabled in Hon. cbn in Hon. split; assumption.
  - intros [Hin ->]. exists language. rewrite Henabled. repeat split. exact Hin.
Qed.

(** X21: Without a wildcard entry, a filter belongs to a listed language
    other than "scminput" that has an own entry [true], or that has no own
    entry and whose id names a member of [Object.prototype], which [in]
    finds on every object. *)
Theorem without_wildcard autocompleteLanguages languageIds filter :
  autocompleteLanguages !! "*" = None →
  filter ∈ getInlineCompletionItemProviderFilters autocompleteLanguages languageIds →
  ∃ language,
    filter = languageFilter language
    ∧ language ∈ languageIds
    ∧ language ≠ "scminput"
    ∧ (autocompleteLanguages !! language = Some true
       ∨ (autocompleteLanguages !! language = None
          ∧ language ∈ objectPrototypeMembers)).
Proof.
  intros Hwild Hfilter.
  apply filters_elem in Hfilter as (language & Hin & Hon & ->).
  exists language. split; [reflexivity |]. split; [exact Hin |].
  destruct (autocompleteLanguages !! language) as [entry|] eqn:Hentry.
  - rewrite enabled_enablement in Hon by (left; rewrite Hentry; eauto).
    apply truthy_ofEntry in Hon. unfold enablement in Hon.
    rewrite Hentry, Hwild in Hon.
    destruct (decide (language = "scminput")) as [-> | Hscm].
    + rewrite (bool_decide_eq_true_2 ("scminput" = "scminput") eq_refl) in Hon.
      discriminate Hon.
    + split; [exact Hscm |]. left.
      rewrite (bool_decide_eq_false_2 _ Hscm) in Hon.
      destruct (bool_decide (language = "*")); cbn in Hon; [discriminate Hon |].
      exact Hon.
  - destruct (decide (language ∈ objectPrototypeMembers)) as [Hmember | Hplain].
    + split; [| right; split; [reflexivity | exact Hmember]].
      intros ->. exact (not_inherited_scminput Hmember).
    + rewrite enabled_enablement in Hon by (right; exact Hplain).
      apply truthy_ofEntry in Hon. unfold enablement in Hon.
      rewrite Hentry, Hwild in Hon. discriminate Hon.
Qed.

(** X27: When no listed language id names a member of [Object.prototype],
    a language yields a filter, of scheme "file", exactly when its
    enablement is true: its own entry for a language that is not disabled
    and has one, the wildcard's value otherwise; so "scminput" takes the
    wildcard's value and receives a filter whenever the wildcard is
    enabled. *)
Theorem filters_follow_enablement autocompleteLanguages languageIds :
  (∀ language, language ∈ languageIds → language ∉ objectPrototypeMembers) →
  (∀ filter,
     filter ∈ getInlineCompletionItemProviderFilters autocompleteLanguages languageIds
     ↔ ∃ language,
         language ∈ languageIds
         ∧ enablement autocompleteLanguages language = Some true
         ∧ filter = languageFilter language)
  ∧ enablement autocompleteLanguages "scminput" = autocompleteLanguages !! "*"
  ∧ (autocompleteLanguages !! "*" = Some true →
     "scminput" ∈ languageIds →
     languageFilter "scminput"
     ∈ getInlineCompletionItemProviderFilters autocompleteLanguages languageIds).
Proof.
  intros Hplain.
  assert (Hscm : enablement autocompleteLanguages "scminput"
                 = autocompleteLanguages !! "*").
  { unfold enablement. destruct (_ !! "scminput"); reflexivity. }
  split; [| split].
  - intros filter. rewrite filters_elem.
    split; intros (language & Hin & Hon & ->); exists language;
      (split; [exact Hin |]); (split; [| reflexivity]).
    + rewrite enabled_enablement in Hon by (right; exact (Hplain _ Hin)).
      apply truthy_ofEntry. exact Hon.
    + rewrite enabled_enablement by (right; exact (Hplain _ Hin)).
      apply truthy_ofEntry. exact Hon.
  - exact Hscm.
  - intros Hall Hin. apply filters_elem. exists "scminput".
    split; [exact Hin |]. split; [| reflexivity].
    rewrite enabled_enablement by (right; exact not_inherited_scminput).
    apply truthy_ofEntry. rewrite Hscm. exact Hall.
Qed.

(** X22: Registration throws in one situation only: a signed-in user inside
    the agent for whom no provider was created. *)
Theorem registration_throws_only_in_agent stringify config authStatus languageIds
    created triggerDelaySetting :
  (∃ message,
     createInlineCompletionItemProvider stringify config authStatus languageIds created
       triggerDelaySetting = Throws message)
  ↔ authenticated authStatus = true
    ∧ created = None
    ∧ isRunningInsideAgent config = true.
Proof.
  unfold createInlineCompletionItemProvider.
  destruct (authenticated authStatus), created as [p|],
    (isRunningInsideAgent config); cbn; split;
    try (intros [message Hm]; discriminate Hm);
    try (intros (H1 & H2 & H3); discriminate);
    eauto.
Qed.

Lemma own_entry_overrides_wildcard_witness :
  ¬ languageFilter "python"
    ∈ getInlineCompletionItemProviderFilters (autocompleteLanguages agentConfiguration)
        ["python"; "scminput"; "go"].
Proof.
  intros Hin.
  apply (own_entry_overrides_wildcard (autocompleteLanguages agentConfiguration)
           ["python"; "scminput"; "go"] "python" false) in Hin as [_ Hentry];
    [discriminate Hentry | discriminate | discriminate |].
  vm_compute. reflexivity.
Defined.

Lemma without_wildcard_witness :
  ∃ language,
    languageFilter "toString" = languageFilter language
    ∧ language ∈ ["python"; "toString"]
    ∧ language ≠ "scminput"
    ∧ (({[ "go" := true; "python" := false ]} : gmap string bool) !! language
       = Some true
       ∨ (({[ "go" := true; "python" := false ]} : gmap string bool) !! language = None
          ∧ language ∈ objectPrototypeMembers)).
Proof.
  apply (without_wildcard {[ "go" := true; "python" := false ]} ["python"; "toString"]
           (languageFilter "toString")).
  - vm_compute. reflexivity.
  - vm_compute. apply list_elem_of_here.
Defined.

Lemma filters_follow_enablement_witness :
  languageFilter "scminput"
  ∈ getInlineCompletionItemProviderFilters (autocompleteLanguages agentConfiguration)
      ["python"; "scminput"; "go"].
Proof.
  apply (filters_follow_enablement (autocompleteLanguages agentConfiguration)
           ["python"; "scminput"; "go"]).
  - intros language Hin Hmember. unfold objectPrototypeMembers in Hmember.
    repeat (apply elem_of_cons in Hin as [-> | Hin];
            [repeat (apply elem_of_cons in Hmember as [Hmember | Hmember];
                     [discriminate Hmember |]);
             apply elem_of_nil in Hmember; exact Hmember |]).
    apply elem_of_nil in Hin. exact Hin.
  - vm_compute. reflexivity.
  - apply list_elem_of_further, list_elem_of_here.
Defined.

End CreateInlineCompletionItemProvider.

(* ===================================================================== *)
(** * Prompt-context assembly of the experimental Ollama provider         *)
(* ===================================================================== *)

Module Ollama.

Record AutocompleteContextSnippet := { snippetUri : string; content : string }.

Record LanguageConfig := { commentStart : string }.

Record OllamaPromptContext := {
  snippets : list AutocompleteContextSnippet;
  context : string;
  currentFileNameComment : string;
  isInfill : bool;
  uri : string;
  prefix : string;
  suffix : string;
  languageId : string
}.

(** The part of a model helper the assembly calls. *)
Record DefaultModel := { getOllamaPrompt : OllamaPromptContext → string }.

(** [options.document] and [options.docContext], as far as they are read. *)
Record GenerateCompletionsOptions := {
  document_languageId : string;
  document_uri : string;
  docContext_prefix : string;
  docContext_suffix : string
}.

Definition maxPromptChars : nat := 1234.

Definition newline : string := String (Ascii.ascii_of_nat 10) EmptyString.

(** [s.split('\n')]: never empty, one more piece than separators. *)
Fixpoint split (separator : Ascii.ascii) (s : string) : list string :=
  match s with
  | EmptyString => [EmptyString]
  | String c rest =>
      if Ascii.eqb c separator then EmptyString :: split separator rest
      else
        match split separator rest with
        | piece :: pieces => String c piece :: pieces
        | [] => [String c EmptyString]
        end
  end.

(** [{ ...prompt, snippets: extendedSnippets }]. *)
Definition withSnippets (prompt : OllamaPromptContext)
    (extendedSnippets : list AutocompleteContextSnippet) : OllamaPromptContext :=
  {| snippets := extendedSnippets;
     context := context prompt;
     currentFileNameComment := currentFileNameComment prompt;
     isInfill := isInfill prompt;
     uri := uri prompt;
     prefix := prefix prompt;
     suffix := suffix prompt;
     languageId := languageId prompt |}.

(** The [for (const snippet of snippets)] loop with its [break]. *)
Fixpoint addSnippets (modelHelper : DefaultModel) (prompt : OllamaPromptContext)
    (remaining : list AutocompleteContextSnippet) : OllamaPromptContext :=
  match remaining with
  | [] => prompt
  | snippet :: rest =>
      let extendedSnippets := snippets prompt ++ [snippet] in
      let promptLengthWithSnippet :=
        String.length (getOllamaPrompt modelHelper (withSnippets prompt extendedSnippets)) in
      if decide (maxPromptChars < promptLengthWithSnippet) then prompt
      else addSnippets modelHelper (withSnippets prompt extendedSnippets) rest
  end.

Section Provider.

(** Defined outside this file: the language table of the tree-sitter
    module, the display path of a URI, the suffix cut of the
    text-processing module, and the process environment. *)
Variable getLanguageConfig : string → option LanguageConfig.
Variable displayPath : string → string.
Variable getSuffixAfterFirstNewline : string → string.
Variable OLLAMA_CONTEXT_SNIPPETS : option string.

Definition fileNameLine (uri commentStart : string) : string :=
  commentStart +:+ " Path: " +:+ displayPath uri +:+ newline.

(** [process.env.OLLAMA_CONTEXT_SNIPPETS] as a condition: set and not the
    empty string. *)
Definition contextSnippetsEnabled : bool :=
  match OLLAMA_CONTEXT_SNIPPETS with
  | Some value => negb (String.eqb value "")
  | None => false
  end.

(** The prompt before the loop: its [snippets] field is empty. *)
Definition initialPrompt (options : GenerateCompletionsOptions)
    (snippets : list AutocompleteContextSnippet) (isInfill : bool) : OllamaPromptContext :=
  let languageId := document_languageId options in
  let uri := document_uri options in
  let commentStart :=
    match getLanguageConfig languageId with
    | Some config => commentStart config
    | None => "// "
    end in
  let context :=
    String.concat (newline +:+ newline)
      (map (λ snippet,
              fileNameLine uri commentStart
              +:+ String.concat newline
                    (map (λ line, commentStart +:+ " " +:+ line)
                         (split (Ascii.ascii_of_nat 10) (content snippet))))
           snippets) in
  {| snippets := [];
     uri := uri;
     languageId := languageId;
     context := context;
     currentFileNameComment := fileNameLine uri commentStart;
     isInfill := isInfill;
     prefix := docContext_prefix options;
     suffix := getSuffixAfterFirstNewline (docContext_suffix options) |}.

Definition createPromptContext (options : GenerateCompletionsOptions)
    (snippets : list AutocompleteContextSnippet) (isInfill : bool)
    (modelHelper : DefaultModel) : OllamaPromptContext :=
  let prompt := initialPrompt options snippets isInfill in
  if contextSnippetsEnabled then addSnippets modelHelper prompt snippets else prompt.

(** The length of the prompt the model helper builds when exactly [kept]
    is attached to the prompt of a request. *)
Definition promptLength (options : GenerateCompletionsOptions)
    (snippets : list AutocompleteContextSnippet) (isInfill : bool)
    (modelHelper : DefaultModel) (kept : list AutocompleteContextSnippet) : nat :=
  String.length
    (getOllamaPrompt modelHelper (withSnippets (initialPrompt options snippets isInfill) kept)).

(** ** Verified properties of the assembly *)

Lemma withSnippets_id prompt : withSnippets prompt (snippets prompt) = prompt.
Proof. destruct prompt. reflexivity. Qed.

Lemma withSnippets_twice prompt first second :
  withSnippets (withSnippets prompt first) second = withSnippets prompt second.
Proof. reflexivity. Qed.

(** The loop keeps a leading segment of the remaining snippets: every
    extension it made fits the budget, and the first snippet left out, if
    any, would have overflowed it. *)
Lemma addSnippets_spec modelHelper remaining :
  ∀ prompt,
    let fits l :=
      String.length (getOllamaPrompt modelHelper (withSnippets prompt l)) in
    ∃ kept rest,
      remaining = kept ++ rest
      ∧ addSnippets modelHelper prompt remaining
        = withSnippets prompt (snippets prompt ++ kept)
      ∧ (∀ k, 0 < k ≤ length kept → fits (snippets prompt ++ take k kept) ≤ maxPromptChars)
      ∧ (∀ next rest', rest = next :: rest' →
           maxPromptChars < fits (snippets prompt ++ kept ++ [next])).
Proof.
  induction remaining as [|snippet remaining IH]; intros prompt fits.
  - exists [], []. split; [reflexivity |]. split.
    + cbn. rewrite app_nil_r, withSnippets_id. reflexivity.
    + split; [cbn; intros k Hk; lia | intros next rest' Hrest; discriminate].
  - cbn [addSnippets].
    destruct (decide (maxPromptChars
                      < String.length
                          (getOllamaPrompt modelHelper
                             (withSnippets prompt (snippets prompt ++ [snippet])))))
      as [Hover | Hfits].
    + exists [], (snippet :: remaining). split; [reflexivity |]. split.
      * rewrite app_nil_r, withSnippets_id. reflexivity.
      * split; [cbn; intros k Hk; lia |].
        intros next rest' [= <- <-]. exact Hover.
    + destruct (IH (withSnippets prompt (snippets prompt ++ [snippet])))
        as (kept & rest & Hsplit & Hresult & Hkept & Hnext).
      cbn [snippets withSnippets] in Hresult, Hkept, Hnext.
      exists (snippet :: kept), rest. split; [rewrite Hsplit; reflexivity |]. split.
      * rewrite Hresult, withSnippets_twice, <- app_assoc. reflexivity.
      * split.
        -- intros [|k] [Hpos Hle]; [lia |]. cbn [length] in Hle.
           destruct k as [|k].
           ++ change (take 1 (snippet :: kept)) with [snippet].
              subst fits. cbn beta. lia.
           ++ specialize (Hkept (S k) ltac:(lia)).
              rewrite withSnippets_twice, <- app_assoc in Hkept. exact Hkept.
        -- intros next rest' Hrest. specialize (Hnext next rest' Hrest).
           rewrite withSnippets_twice, <- app_assoc in Hnext. exact Hnext.
Qed.

(** C6 (amended): with the OLLAMA_CONTEXT_SNIPPETS gate set, snippets are
    added one at a time in the given order; every addition that is kept
    leaves the prompt within the budget of 1234 characters; the loop stops
    at the first snippet whose addition would overflow; so the assembled
    prompt is within the budget whenever at least one snippet was kept. *)
Theorem createPromptContext_snippet_budget options snippetList isInfill modelHelper :
  contextSnippetsEnabled = true →
  let prompt := createPromptContext options snippetList isInfill modelHelper in
  let length_with := promptLength options snippetList isInfill modelHelper in
  ∃ rest,
    snippetList = snippets prompt ++ rest
    ∧ prompt = withSnippets (initialPrompt options snippetList isInfill) (snippets prompt)
    ∧ (∀ k, 0 < k ≤ length (snippets prompt) →
         length_with (take k snippetList) ≤ maxPromptChars)
    ∧ (∀ next rest', rest = next :: rest' →
         maxPromptChars < length_with (snippets prompt ++ [next]))
    ∧ (snippets prompt ≠ [] →
         String.length (getOllamaPrompt modelHelper prompt) ≤ maxPromptChars).
Proof.
  intros Henabled prompt length_with. subst prompt length_with.
  unfold createPromptContext, promptLength. rewrite Henabled.
  destruct (addSnippets_spec modelHelper snippetList
              (initialPrompt options snippetList isInfill))
    as (kept & rest & Hsplit & Hresult & Hkept & Hnext).
  change (snippets (initialPrompt options snippetList isInfill)) with
    (@nil AutocompleteContextSnippet) in Hresult, Hkept, Hnext.
  cbn [app] in Hresult, Hkept, Hnext.
  rewrite Hresult. cbn [snippets withSnippets].
  exists rest. split; [exact Hsplit |]. split; [reflexivity |]. split; [| split].
  - intros k Hk.
    replace (take k snippetList) with (take k kept)
      by (rewrite Hsplit, take_app_le by lia; reflexivity).
    apply Hkept. exact Hk.
  - exact Hnext.
  - intros Hne.
    specialize (Hkept (length kept)).
    rewrite firstn_all in Hkept. apply Hkept.
    destruct kept; [contradiction | cbn; lia].
Qed.

End Provider.

(** ** A request whose document prefix alone exceeds the budget *)

Fixpoint repeatChar (c : Ascii.ascii) (n : nat) : string :=
  match n with
  | O => EmptyString
  | S n => String c (repeatChar c n)
  end.

(** A model helper whose prompt is the kept snippets, the file name line
    and the document prefix.  A [PromptString] is modelled by the string it
    holds. *)
Definition concatenatingHelper : DefaultModel :=
  {| getOllamaPrompt prompt :=
       String.concat "" (map content (snippets prompt))
       +:+ currentFileNameComment prompt +:+ prefix prompt |}.

Definition longDocument : GenerateCompletionsOptions :=
  {| document_languageId := "typescript";
     document_uri := "file://foo/bar/test.ts";
     docContext_prefix := repeatChar (Ascii.ascii_of_nat 120) 1300;
     docContext_suffix := "" |}.

Definition shortDocument : GenerateCompletionsOptions :=
  {| document_languageId := "typescript";
     document_uri := "file://foo/bar/test.ts";
     docContext_prefix := "const total = ";
     docContext_suffix := "" |}.

Definition someSnippets : list AutocompleteContextSnippet :=
  [ {| snippetUri := "file://foo/bar/sum.ts"; content := "export const a = 1" |};
    {| snippetUri := "file://foo/bar/big.ts"; content := repeatChar (Ascii.ascii_of_nat 121) 1300 |};
    {| snippetUri := "file://foo/bar/b.ts"; content := "export const b = 2" |} ].

(** C6 as stated fails: with the gate set, a document prefix of 1300
    characters leaves no room for any snippet, and the assembled prompt
    is longer than the budget of 1234 characters; with the gate unset no
    snippet is added although the first one would fit. *)
Lemma long_prefix_exceeds_budget :
  let prompt :=
    createPromptContext (λ _, None) (λ uri, uri) (λ suffix, suffix) (Some "1")
      longDocument someSnippets false concatenatingHelper in
  (snippets prompt = []
   ∧ ¬ (String.length (getOllamaPrompt concatenatingHelper prompt) ≤ maxPromptChars))
  ∧ (snippets (createPromptContext (λ _, None) (λ uri, uri) (λ suffix, suffix) None
                 shortDocument someSnippets false concatenatingHelper) = []
     ∧ promptLength (λ _, None) (λ uri, uri) (λ suffix, suffix) shortDocument
         someSnippets false concatenatingHelper (take 1 someSnippets) = 65).
Proof.
  cbn zeta. split; [| split; vm_compute; reflexivity].
  assert (Hlength :
            String.length
              (getOllamaPrompt concatenatingHelper
                 (createPromptContext (λ _, None) (λ uri, uri) (λ suffix, suffix)
                    (Some "1") longDocument someSnippets false concatenatingHelper))
            = 1333)
    by (vm_compute; reflexivity).
  cbn zeta. split; [vm_compute; reflexivity |].
  rewrite Hlength. unfold maxPromptChars. lia.
Qed.

Lemma createPromptContext_snippet_budget_witness :
  contextSnippetsEnabled (Some "1") = true
  ∧ snippets (createPromptContext (λ _, None) (λ uri, uri) (λ suffix, suffix) (Some "1")
                shortDocument someSnippets false concatenatingHelper)
    = take 1 someSnippets
  ∧ String.length
      (getOllamaPrompt concatenatingHelper
         (createPromptContext (λ _, None) (λ uri, uri) (λ suffix, suffix) (Some "1")
            shortDocument someSnippets false concatenatingHelper))
    ≤ maxPromptChars.
Proof.
  split; [reflexivity |].
  assert (Hkept :
            snippets (createPromptContext (λ _, None) (λ uri, uri) (λ suffix, suffix)
                        (Some "1") shortDocument someSnippets false concatenatingHelper)
            = take 1 someSnippets)
    by (vm_compute; reflexivity).
  split; [exact Hkept |].
  destruct (createPromptContext_snippet_budget (λ _, None) (λ uri, uri)
              (λ suffix, suffix) (Some "1") shortDocument someSnippets false
              concatenatingHelper eq_refl)
    as (rest & _ & _ & _ & _ & Hwithin).
  apply Hwithin. rewrite Hkept. discriminate.
Defined.

Example gate_unset_keeps_no_snippet :
  snippets (createPromptContext (λ _, None) (λ uri, uri) (λ suffix, suffix) None
              shortDocument someSnippets false concatenatingHelper)
  = [].
Proof. reflexivity. Qed.

(** ** Further properties of the assembly *)

(** X25: With the gate set, when every leading segment of the given snippets
    keeps the prompt within the budget, no snippet is dropped. *)
Theorem all_snippets_kept_when_they_fit getLanguageConfig displayPath
    getSuffixAfterFirstNewline value options snippetList isInfill modelHelper :
  contextSnippetsEnabled (Some value) = true →
  (∀ k, 0 < k ≤ length snippetList →
        promptLength getLanguageConfig displayPath getSuffixAfterFirstNewline options
          snippetList isInfill modelHelper (take k snippetList) ≤ maxPromptChars) →
  snippets (createPromptContext getLanguageConfig displayPath getSuffixAfterFirstNewline
              (Some value) options snippetList isInfill modelHelper)
  = snippetList.
Proof.
  intros Henabled Hfit. unfold createPromptContext. rewrite Henabled.
  destruct (addSnippets_spec modelHelper snippetList
              (initialPrompt getLanguageConfig displayPath getSuffixAfterFirstNewline
                 options snippetList isInfill))
    as (kept & rest & Hsplit & Hresult & _ & Hnext).
  change (snippets (initialPrompt getLanguageConfig displayPath
                      getSuffixAfterFirstNewline options snippetList isInfill))
    with (@nil AutocompleteContextSnippet) in Hresult, Hnext.
  cbn [app] in Hresult, Hnext.
  rewrite Hresult. cbn [snippets withSnippets].
  destruct rest as [|next rest'].
  - rewrite Hsplit, app_nil_r. reflexivity.
  - exfalso. specialize (Hnext next rest' eq_refl).
    specialize (Hfit (S (length kept))).
    unfold promptLength in Hfit.
    replace (take (S (length kept)) snippetList) with (kept ++ [next]) in Hfit.
    + assert (Hlen : length snippetList = (length kept + S (length rest'))%nat)
        by (rewrite Hsplit, length_app; reflexivity).
      specialize (Hfit ltac:(lia)). lia.
    + rewrite Hsplit.
      change (next :: rest') with ([next] ++ rest'). rewrite app_assoc.
      rewrite take_app_length'; [reflexivity |].
      rewrite length_app. cbn. lia.
Qed.

(** The loop changes no other field than [snippets]. *)
Lemma createPromptContext_fields getLanguageConfig displayPath
    getSuffixAfterFirstNewline gate options snippetList isInfill modelHelper :
  let prompt :=
    createPromptContext getLanguageConfig displayPath getSuffixAfterFirstNewline gate
      options snippetList isInfill modelHelper in
  let initial :=
    initialPrompt getLanguageConfig displayPath getSuffixAfterFirstNewline options
      snippetList isInfill in
  prompt = withSnippets initial (snippets prompt)
  ∧ context prompt = context initial
  ∧ ∃ rest, snippetList = snippets prompt ++ rest.
Proof.
  intros prompt initial. subst prompt initial. unfold createPromptContext.
  destruct (contextSnippetsEnabled gate).
  - destruct (addSnippets_spec modelHelper snippetList
                (initialPrompt getLanguageConfig displayPath getSuffixAfterFirstNewline
                   options snippetList isInfill))
      as (kept & rest & Hsplit & Hresult & _ & _).
    rewrite Hresult. cbn [snippets withSnippets context].
    split; [reflexivity |]. split; [reflexivity |].
    exists rest. exact Hsplit.
  - split; [reflexivity |]. split; [reflexivity |].
    exists snippetList. reflexivity.
Qed.

Lemma all_snippets_kept_when_they_fit_witness :
  snippets (createPromptContext (λ _, None) (λ uri, uri) (λ suffix, suffix) (Some "1")
              shortDocument (take 1 someSnippets) false concatenatingHelper)
  = take 1 someSnippets.
Proof.
  apply (all_snippets_kept_when_they_fit (λ _, None) (λ uri, uri) (λ suffix, suffix) "1"
           shortDocument (take 1 someSnippets) false concatenatingHelper eq_refl).
  intros k Hk. cbn in Hk.
  assert (k = 1%nat) as -> by lia.
  vm_compute. lia.
Defined.

End Ollama.

(* ===================================================================== *)
(** * JavaScript string primitives used by the provider selection         *)
(* ===================================================================== *)

Module Js.

Local Open Scope Z_scope.

(** The position of the first occurrence of [needle] in [s], if any. *)
Fixpoint firstOccurrence (needle s : string) : option nat :=
  if String.prefix needle s then Some O
  else
    match s with
    | EmptyString => None
    | String _ rest => S <$> firstOccurrence needle rest
    end.

(** [s.indexOf(needle)]: -1 when [needle] does not occur. *)
Definition indexOf (s needle : string) : Z :=
  match firstOccurrence needle s with
  | Some i => Z.of_nat i
  | None => -1
  end.

(** [s.includes(needle)]. *)
Definition includes (s needle : string) : bool :=
  bool_decide (is_Some (firstOccurrence needle s)).

(** How [slice] reads an index: a negative index counts from the end,
    and every index is clamped to the string. *)
Definition sliceIndex (length index : Z) : Z :=
  if index <? 0 then Z.max (length + index) 0 else Z.min index length.

(** [s.slice(start, end)]; [s.slice(start)] when [end_] is absent. *)
Definition slice (s : string) (start : Z) (end_ : option Z) : string :=
  let length := Z.of_nat (String.length s) in
  let from := sliceIndex length start in
  let to := match end_ with Some e => sliceIndex length e | None => length end in
  String.substring (Z.to_nat from) (Z.to_nat (to - from)) s.

(** Truthiness of a value of type [string | undefined]. *)
Definition truthy (value : option string) : bool :=
  match value with
  | Some s => negb (String.eqb s "")
  | None => false
  end.

(** ** Facts about the primitives *)

Lemma app_cons c (s t : string) : String c s +:+ t = String c (s +:+ t).
Proof. reflexivity. Qed.

Lemma app_empty (t : string) : EmptyString +:+ t = t.
Proof. reflexivity. Qed.

Lemma length_app (s t : string) :
  String.length (s +:+ t) = (String.length s + String.length t)%nat.
Proof.
  induction s as [|c s IH]; [reflexivity |].
  rewrite app_cons. cbn. f_equal. exact IH.
Qed.

Lemma substring_all (s : string) : String.substring 0 (String.length s) s = s.
Proof. induction s as [|c s IH]; cbn; [reflexivity | f_equal; exact IH]. Qed.

Lemma substring_app_left (s t : string) :
  String.substring 0 (String.length s) (s +:+ t) = s.
Proof.
  induction s as [|c s IH].
  - rewrite app_empty. destruct t; reflexivity.
  - rewrite app_cons. cbn. f_equal. exact IH.
Qed.

Lemma substring_app_skip (s t : string) (n m : nat) :
  String.substring (String.length s + n) m (s +:+ t) = String.substring n m t.
Proof.
  induction s as [|c s IH]; [reflexivity |].
  rewrite app_cons. cbn. exact IH.
Qed.

Lemma prefix_char c s :
  String.prefix (String c EmptyString) s = true ↔ ∃ rest, s = String c rest.
Proof.
  destruct s as [|c' s]; cbn.
  - split; [discriminate | intros [rest Hrest]; discriminate].
  - destruct (Ascii.ascii_dec c c') as [-> | Hne].
    + split; [eauto |]. intros _. destruct s; reflexivity.
    + split; [discriminate |]. intros [rest [= <- _]]. contradiction.
Qed.

(** A found character splits the string at its first occurrence. *)
Lemma firstOccurrence_char_Some c s i :
  firstOccurrence (String c EmptyString) s = Some i →
  ∃ before after,
    s = before +:+ String c after
    ∧ String.length before = i
    ∧ firstOccurrence (String c EmptyString) before = None.
Proof.
  revert i. induction s as [|c' s IH]; intros i.
  - cbn. discriminate.
  - cbn [firstOccurrence].
    destruct (String.prefix (String c EmptyString) (String c' s)) eqn:Hprefix.
    + intros [= <-]. apply prefix_char in Hprefix as [rest [= -> ->]].
      exists EmptyString, rest. split; [reflexivity |]. split; reflexivity.
    + destruct (firstOccurrence (String c EmptyString) s) as [j|] eqn:Hrest;
        [| discriminate].
      cbn. intros [= <-].
      destruct (IH j eq_refl) as (before & after & -> & Hlen & Hnone).
      exists (String c' before), after. split; [reflexivity |].
      split; [cbn; rewrite Hlen; reflexivity |].
      cbn [firstOccurrence].
      assert (Hp : String.prefix (String c EmptyString) (String c' before) = false).
      { destruct (String.prefix (String c EmptyString) (String c' before)) eqn:Hp;
          [| reflexivity].
        apply prefix_char in Hp as [r [= -> _]].
        assert (String.prefix (String c EmptyString)
                  (String c (before +:+ String c after)) = true)
          by (apply prefix_char; eauto).
        congruence. }
      rewrite Hp, Hnone. reflexivity.
Qed.

(** A character that does not occur in [before] is first found right
    after it. *)
Lemma firstOccurrence_char_app c before after :
  firstOccurrence (String c EmptyString) before = None →
  firstOccurrence (String c EmptyString) (before +:+ String c after)
  = Some (String.length before).
Proof.
  induction before as [|c' before IH]; intros Hnone.
  - rewrite app_empty. cbn [firstOccurrence String.length].
    rewrite (proj2 (prefix_char c (String c after))) by eauto. reflexivity.
  - cbn [firstOccurrence] in Hnone.
    destruct (String.prefix (String c EmptyString) (String c' before)) eqn:Hp;
      [discriminate |].
    destruct (firstOccurrence (String c EmptyString) before) eqn:Hrest;
      [discriminate |].
    rewrite app_cons. cbn [firstOccurrence].
    assert (Hp' : String.prefix (String c EmptyString)
                    (String c' (before +:+ String c after)) = false).
    { destruct (String.prefix (String c EmptyString)
                  (String c' (before +:+ String c after))) eqn:Hq; [| reflexivity].
      apply prefix_char in Hq as [r [= -> _]].
      assert (String.prefix (String c EmptyString) (String c before) = true)
        by (apply prefix_char; eauto).
      congruence. }
    rewrite Hp', (IH eq_refl). reflexivity.
Qed.

Lemma indexOf_char_found c before after :
  indexOf before (String c EmptyString) = -1 →
  indexOf (before +:+ String c after) (String c EmptyString)
  = Z.of_nat (String.length before).
Proof.
  unfold indexOf. intros Hnone.
  destruct (firstOccurrence (String c EmptyString) before) eqn:Hbefore; [lia |].
  rewrite (firstOccurrence_char_app c before after Hbefore). reflexivity.
Qed.

Lemma sliceIndex_inside length index :
  0 ≤ index ≤ length → sliceIndex length index = index.
Proof. intros H. unfold sliceIndex. destruct (Z.ltb_spec index 0); lia. Qed.

Lemma sliceIndex_negative length index :
  index < 0 → 0 ≤ length + index → sliceIndex length index = length + index.
Proof. intros H1 H2. unfold sliceIndex. destruct (Z.ltb_spec index 0); lia. Qed.

(** [s.slice(0, i)] and [s.slice(i + 1)] around position [i = |before|]. *)
Lemma slice_before (before after : string) c :
  slice (before +:+ String c after) 0 (Some (Z.of_nat (String.length before))) = before.
Proof.
  unfold slice. rewrite length_app. cbn [String.length].
  rewrite !sliceIndex_inside by lia.
  change (Z.to_nat 0) with O. rewrite Z.sub_0_r, Nat2Z.id.
  apply substring_app_left.
Qed.

Lemma slice_after (before after : string) c :
  slice (before +:+ String c after) (Z.of_nat (String.length before) + 1) None = after.
Proof.
  unfold slice. rewrite length_app. cbn [String.length].
  rewrite sliceIndex_inside by lia.
  replace (Z.to_nat (Z.of_nat (String.length before) + 1))
    with (String.length before + 1)%nat by lia.
  replace (Z.to_nat _) with (String.length after) by lia.
  rewrite substring_app_skip. cbn. apply substring_all.
Qed.

(** [s.slice(0, -1)] drops the last character and [s.slice(0)] keeps the
    whole string. *)
Lemma slice_drop_last (init : string) c :
  slice (init +:+ String c EmptyString) 0 (Some (-1)) = init.
Proof.
  unfold slice. rewrite length_app. cbn [String.length].
  rewrite sliceIndex_inside by lia.
  rewrite sliceIndex_negative by lia.
  change (Z.to_nat 0) with O.
  replace (Z.to_nat _) with (String.length init) by lia.
  apply substring_app_left.
Qed.

Lemma slice_whole (s : string) : slice s 0 None = s.
Proof.
  unfold slice. rewrite sliceIndex_inside by lia.
  change (Z.to_nat 0) with O. rewrite Z.sub_0_r, Nat2Z.id.
  apply substring_all.
Qed.

(** Every non-empty string ends with a last character. *)
Lemma string_last (s : string) :
  s ≠ EmptyString → ∃ init c, s = init +:+ String c EmptyString.
Proof.
  induction s as [|c s IH]; intros Hne; [contradiction |].
  destruct s as [|c' s].
  - exists EmptyString, c. reflexivity.
  - destruct IH as (init & last & Hs); [discriminate |].
    exists (String c init), last. rewrite app_cons, <- Hs. reflexivity.
Qed.

End Js.

(* ===================================================================== *)
(** * Model information of the site configuration ([get-model-info.ts])   *)
(* ===================================================================== *)

Module GetModelInfo.

Local Open Scope Z_scope.

(** [model.clientSideConfig]: [openAICompatible] says whether the
    [openAICompatible] object is present. *)
Record ClientSideConfig := { openAICompatible : bool }.

(** The fields of a [Model] that are read. *)
Record Model := {
  id : string;
  model_provider : string;
  clientSideConfig : option ClientSideConfig
}.

Record ModelInfo := {
  provider : string;
  legacyModel : option string;
  model : option Model
}.

(** [ModelInfo | Error]. *)
Inductive ModelInfoOrError :=
  | Info (info : ModelInfo)
  | Error (message : string).

(** [authStatus.configOverwrites], as far as it is read. *)
Record CodyLLMSiteConfiguration := {
  site_provider : option string;
  completionModel : option string
}.

(** The own entries of the table [delimiters]. *)
Definition delimiters : gmap string string :=
  {[ "sourcegraph" := "/"; "aws-bedrock" := "." ]}.

(** The text that a member of [Object.prototype] turns into where a string
    is expected: the source text V8 gives a built-in function, and the
    tag of the prototype object for "__proto__". *)
Definition inheritedMemberText (name : string) : string :=
  if String.eqb name "__proto__" then "[object Object]"
  else "function " +:+ (if String.eqb name "constructor" then "Object" else name)
       +:+ "() { [native code] }".

(** [delimiters[provider]]: an own entry, or the member that the table
    inherits from [Object.prototype] under that name, or [undefined]. *)
Definition delimiterOf (provider : string) : option string :=
  match delimiters !! provider with
  | Some delimiter => Some delimiter
  | None =>
      if bool_decide
           (provider ∈ CreateInlineCompletionItemProvider.objectPrototypeMembers)
      then Some (inheritedMemberText provider)
      else None
  end.

Definition nonEmpty (s : string) : bool := negb (String.eqb s "").

Definition parseProviderAndModel (info : ModelInfo) : ModelInfoOrError :=
  let delimiter := delimiterOf (provider info) in
  if negb (Js.truthy delimiter) then
    Info {| provider := provider info; legacyModel := legacyModel info; model := None |}
  else
    let parsed :=
      match legacyModel info with
      | Some name =>
          if nonEmpty name then
            let index := Js.indexOf name (default "" delimiter) in
            let parsedProvider := Js.slice name 0 (Some index) in
            let parsedModel := Js.slice name (index + 1) None in
            if nonEmpty parsedProvider && nonEmpty parsedModel then
              Some {| provider := parsedProvider; legacyModel := Some parsedModel;
                      model := None |}
            else None
          else None
      | None => None
      end in
    match parsed with
    | Some result => Info result
    | None =>
        Error ((if Js.truthy (legacyModel info)
                then "Failed to parse the model name " +:+ default "" (legacyModel info)
                else "Model missing but delimiter " +:+ default "" delimiter
                     +:+ " expected")
               +:+ "for '" +:+ provider info +:+ "' completions provider.")
    end.

(** [getModelInfo()]: [defaultModel] is the answer of
    [modelsService.instance.getDefaultModel(ModelUsage.Autocomplete)] and
    [configOverwrites] that of the current auth status. *)
Definition getModelInfo (defaultModel : option Model)
    (configOverwrites : option CodyLLMSiteConfiguration) : ModelInfoOrError :=
  match defaultModel with
  | Some m =>
      let provider :=
        if default false (openAICompatible <$> clientSideConfig m)
        then "openaicompatible" else model_provider m in
      Info {| provider := provider; legacyModel := Some (id m); model := Some m |}
  | None =>
      let siteProvider := configOverwrites ≫= site_provider in
      if Js.truthy siteProvider then
        parseProviderAndModel
          {| provider := default "" siteProvider;
             legacyModel := configOverwrites ≫= completionModel;
             model := None |}
      else
        Error "Failed to get autocomplete model info. Please configure the `completionModel` using site configuration."
  end.

(** ** Verified properties of the parser *)

Lemma nonEmpty_true s : nonEmpty s = true ↔ s ≠ EmptyString.
Proof.
  unfold nonEmpty. destruct (String.eqb_spec s ""); cbn; split; congruence.
Qed.

Lemma nonEmpty_app_char (s : string) c t : nonEmpty (s +:+ String c t) = true.
Proof. apply nonEmpty_true. destruct s; discriminate. Qed.

(** What the parser does once a single-character delimiter is configured
    for the provider and the model name is not empty. *)
Lemma parse_with_delimiter name c info :
  delimiters !! provider info = Some (String c EmptyString) →
  legacyModel info = Some name →
  name ≠ EmptyString →
  let index := Js.indexOf name (String c EmptyString) in
  let parsedProvider := Js.slice name 0 (Some index) in
  let parsedModel := Js.slice name (index + 1) None in
  parseProviderAndModel info
  = if nonEmpty parsedProvider && nonEmpty parsedModel
    then Info {| provider := parsedProvider; legacyModel := Some parsedModel;
                 model := None |}
    else Error ("Failed to parse the model name " +:+ name +:+ "for '"
                +:+ provider info +:+ "' completions provider.").
Proof.
  intros Hdelimiter Hname Hne. cbn zeta.
  unfold parseProviderAndModel, delimiterOf. rewrite Hdelimiter, Hname. cbn [Js.truthy default].
  rewrite (proj2 (nonEmpty_true name) Hne).
  change (negb (negb (String.eqb (String c EmptyString) ""))) with false.
  cbn [negb].
  destruct (nonEmpty _ && nonEmpty _); [reflexivity |].
  fold (nonEmpty name). rewrite (proj2 (nonEmpty_true name) Hne). reflexivity.
Qed.

Lemma parse_splits_at_first_delimiter_aux info c before after :
  delimiters !! provider info = Some (String c EmptyString) →
  legacyModel info = Some (before +:+ String c after) →
  Js.indexOf before (String c EmptyString) = -1 →
  before ≠ EmptyString →
  after ≠ EmptyString →
  parseProviderAndModel info
  = Info {| provider := before; legacyModel := Some after; model := None |}.
Proof.
  intros Hdelimiter Hname Habsent Hbefore Hafter.
  rewrite (parse_with_delimiter _ c info Hdelimiter Hname)
    by (destruct before; discriminate).
  rewrite (Js.indexOf_char_found c before after Habsent).
  rewrite Js.slice_before, Js.slice_after.
  rewrite (proj2 (nonEmpty_true before) Hbefore), (proj2 (nonEmpty_true after) Hafter).
  reflexivity.
Qed.

Lemma parse_without_delimiter_aux info c init last :
  delimiters !! provider info = Some (String c EmptyString) →
  legacyModel info = Some (init +:+ String last EmptyString) →
  Js.indexOf (init +:+ String last EmptyString) (String c EmptyString) = -1 →
  init ≠ EmptyString →
  parseProviderAndModel info
  = Info {| provider := init;
            legacyModel := Some (init +:+ String last EmptyString);
            model := None |}.
Proof.
  intros Hdelimiter Hname Habsent Hinit.
  rewrite (parse_with_delimiter _ c info Hdelimiter Hname)
    by (destruct init; discriminate).
  rewrite Habsent. change (-1 + 1) with 0.
  rewrite Js.slice_drop_last, Js.slice_whole.
  rewrite (proj2 (nonEmpty_true init) Hinit), nonEmpty_app_char.
  reflexivity.
Qed.

(** X1: A model name [before<delimiter>after], with no delimiter in [before]
    and both parts non-empty, is split into provider [before] and model
    [after]. *)
Theorem parse_splits_at_first_delimiter info c before after :
  delimiters !! provider info = Some (String c EmptyString) →
  legacyModel info = Some (before +:+ String c after) →
  Js.indexOf before (String c EmptyString) = -1 →
  before ≠ EmptyString →
  after ≠ EmptyString →
  parseProviderAndModel info
  = Info {| provider := before; legacyModel := Some after; model := None |}.
Proof. apply parse_splits_at_first_delimiter_aux. Qed.

(** X2: A model name of at least two characters without the delimiter is not
    rejected: [indexOf] answers -1, so the provider becomes the name
    without its last character and the model the whole name. *)
Theorem parse_without_delimiter info c init last :
  delimiters !! provider info = Some (String c EmptyString) →
  legacyModel info = Some (init +:+ String last EmptyString) →
  Js.indexOf (init +:+ String last EmptyString) (String c EmptyString) = -1 →
  init ≠ EmptyString →
  parseProviderAndModel info
  = Info {| provider := init;
            legacyModel := Some (init +:+ String last EmptyString);
            model := None |}.
Proof. apply parse_without_delimiter_aux. Qed.

(** X3: For a provider with a delimiter the parser fails exactly when the
    model name is missing or empty, starts with the delimiter, has nothing
    after its first delimiter, or is one character other than the
    delimiter. *)
Theorem parse_error_cases info c :
  delimiters !! provider info = Some (String c EmptyString) →
  (∃ message, parseProviderAndModel info = Error message)
  ↔ (Js.truthy (legacyModel info) = false
     ∨ (∃ rest, legacyModel info = Some (String c rest))
     ∨ (∃ before, legacyModel info = Some (before +:+ String c EmptyString)
                  ∧ Js.indexOf before (String c EmptyString) = -1)
     ∨ (∃ a, legacyModel info = Some (String a EmptyString) ∧ a ≠ c)).
Proof.
  intros Hdelimiter.
  destruct (legacyModel info) as [name|] eqn:Hname; cycle 1.
  { split; [intros _; left; reflexivity |]. intros _.
    unfold parseProviderAndModel, delimiterOf. rewrite Hdelimiter, Hname. cbn. eauto. }
  destruct (decide (name = EmptyString)) as [-> | Hne].
  { split; [intros _; left; reflexivity |]. intros _.
    unfold parseProviderAndModel, delimiterOf. rewrite Hdelimiter, Hname. cbn. eauto. }
  assert (Htruthy : Js.truthy (Some name) = true)
    by (cbn; apply (proj2 (nonEmpty_true name) Hne)).
  pose proof (parse_with_delimiter name c info Hdelimiter Hname Hne) as Hparse.
  cbn zeta in Hparse.
  destruct (Js.firstOccurrence (String c EmptyString) name) as [i|] eqn:Hfound.
  - destruct (Js.firstOccurrence_char_Some c name i Hfound)
      as (before & after & -> & Hlen & Hnone).
    assert (Habsent : Js.indexOf before (String c EmptyString) = -1)
      by (unfold Js.indexOf; rewrite Hnone; reflexivity).
    rewrite (Js.indexOf_char_found c before after Habsent) in Hparse.
    rewrite Js.slice_before, Js.slice_after in Hparse.
    destruct before as [|b before].
    + rewrite Js.app_empty in *. split.
      * intros _. right. left. eauto.
      * intros _. rewrite Hparse. cbn. eauto.
    + destruct after as [|a after].
      * split.
        -- intros _. right. right. left. eauto.
        -- intros _. rewrite Hparse. cbn. eauto.
      * split.
        -- rewrite Hparse. cbn. intros [message Hm]. discriminate.
        -- intros [Hf | [(rest & [= -> _]) | [(before' & [= Hb] & Hnone') | (a' & [= _ Ha] & _)]]].
           ++ rewrite Htruthy in Hf. discriminate.
           ++ cbn [Js.firstOccurrence] in Hnone.
              rewrite (proj2 (Js.prefix_char c (String c before))) in Hnone by eauto.
              discriminate.
           ++ assert (Hsame : Js.firstOccurrence (String c EmptyString)
                                (String b before +:+ String c (String a after))
                              = Js.firstOccurrence (String c EmptyString)
                                  (before' +:+ String c EmptyString))
               by (rewrite Hb; reflexivity).
              rewrite (Js.firstOccurrence_char_app c _ _ Hnone) in Hsame.
              unfold Js.indexOf in Hnone'.
              destruct (Js.firstOccurrence (String c EmptyString) before') eqn:Hb';
                [lia |].
              rewrite (Js.firstOccurrence_char_app c _ _ Hb') in Hsame.
              injection Hsame as Hlens.
              assert (Hl : String.length (String b before +:+ String c (String a after))
                           = String.length (before' +:+ String c EmptyString))
                by (rewrite Hb; reflexivity).
              rewrite !Js.length_app in Hl. cbn [String.length] in Hl. lia.
           ++ destruct before; discriminate.
  - assert (Habsent : Js.indexOf name (String c EmptyString) = -1)
      by (unfold Js.indexOf; rewrite Hfound; reflexivity).
    rewrite Habsent in Hparse. change (-1 + 1) with 0 in Hparse.
    destruct (Js.string_last name Hne) as (init & last & ->).
    rewrite Js.slice_drop_last, Js.slice_whole, nonEmpty_app_char in Hparse.
    rewrite andb_true_r in Hparse.
    assert (Hlast : last ≠ c).
    { intros ->. rewrite (Js.firstOccurrence_char_app c init EmptyString) in Hfound;
        [discriminate |].
      destruct (Js.firstOccurrence (String c EmptyString) init) as [j|] eqn:Hinit;
        [| reflexivity].
      destruct (Js.firstOccurrence_char_Some c init j Hinit)
        as (b1 & a1 & -> & _ & Hb1).
      assert (Hassoc : (b1 +:+ String c a1) +:+ String c EmptyString
                       = b1 +:+ String c (a1 +:+ String c EmptyString)).
      { clear. induction b1 as [|x b1 IH]; [reflexivity |].
        rewrite !Js.app_cons, IH. reflexivity. }
      rewrite Hassoc, (Js.firstOccurrence_char_app c b1 _ Hb1) in Hfound.
      discriminate. }
    destruct init as [|x init].
    + rewrite Js.app_empty in *. split.
      * intros _. right. right. right. eauto.
      * intros _. rewrite Hparse. cbn. eauto.
    + split.
      * rewrite Hparse. cbn. intros [message Hm]. discriminate.
      * intros [Hf | [(rest & [= -> _]) | [(before' & [= Hb] & Hnone') | (a' & [= _ Ha] & _)]]].
        -- rewrite Htruthy in Hf. discriminate.
        -- rewrite Js.app_cons in Hfound. cbn [Js.firstOccurrence] in Hfound.
           rewrite (proj2 (Js.prefix_char c _)) in Hfound by eauto. discriminate.
        -- unfold Js.indexOf in Hnone'.
           destruct (Js.firstOccurrence (String c EmptyString) before') eqn:Hb';
             [lia |].
           rewrite Hb, (Js.firstOccurrence_char_app c _ _ Hb') in Hfound.
           discriminate.
        -- destruct init; discriminate.
Qed.

(** A default autocomplete model decides alone: the site configuration is
    not read, no error is returned, the legacy model is the model's id and
    the provider is "openaicompatible" exactly for a model with an
    OpenAI-compatible client-side configuration. *)
Theorem getModelInfo_default_model m configOverwrites :
  ∃ info,
    getModelInfo (Some m) configOverwrites = Info info
    ∧ getModelInfo (Some m) None = Info info
    ∧ legacyModel info = Some (id m)
    ∧ model info = Some m
    ∧ provider info
      = match clientSideConfig m with
        | Some {| openAICompatible := true |} => "openaicompatible"
        | _ => model_provider m
        end.
Proof.
  eexists. split; [reflexivity |]. split; [reflexivity |].
  split; [reflexivity |]. split; [reflexivity |].
  cbn. destruct (clientSideConfig m) as [[[|]]|]; reflexivity.
Qed.

(** ** Concrete site configurations *)

Definition sourcegraphClaude : ModelInfo :=
  {| provider := "sourcegraph"; legacyModel := Some "anthropic/claude-instant-1.2";
     model := None |}.

Definition sourcegraphHelloWorld : ModelInfo :=
  {| provider := "sourcegraph"; legacyModel := Some "hello-world"; model := None |}.

Definition bedrockTrailing : ModelInfo :=
  {| provider := "aws-bedrock"; legacyModel := Some "anthropic."; model := None |}.

Lemma parse_splits_at_first_delimiter_witness :
  parseProviderAndModel sourcegraphClaude
  = Info {| provider := "anthropic"; legacyModel := Some "claude-instant-1.2";
            model := None |}.
Proof.
  apply (parse_splits_at_first_delimiter sourcegraphClaude (Ascii.ascii_of_nat 47) "anthropic"
           "claude-instant-1.2"); try reflexivity; discriminate.
Defined.

Lemma parse_without_delimiter_witness :
  parseProviderAndModel sourcegraphHelloWorld
  = Info {| provider := "hello-worl"; legacyModel := Some "hello-world";
            model := None |}.
Proof.
  apply (parse_without_delimiter sourcegraphHelloWorld (Ascii.ascii_of_nat 47) "hello-worl" (Ascii.ascii_of_nat 100));
    try reflexivity; discriminate.
Defined.

Lemma parse_error_cases_witness :
  ∃ message, parseProviderAndModel bedrockTrailing = Error message.
Proof.
  apply (parse_error_cases bedrockTrailing (Ascii.ascii_of_nat 46)); [reflexivity |].
  right. right. left. exists "anthropic". split; reflexivity.
Defined.

(** A provider named like a member of [Object.prototype] takes the
    delimiter branch with the member's text as delimiter. *)
Example inherited_delimiter :
  parseProviderAndModel
    {| provider := "constructor"; legacyModel := Some "hello"; model := None |}
  = Info {| provider := "hell"; legacyModel := Some "hello"; model := None |}
  ∧ parseProviderAndModel
      {| provider := "constructor"; legacyModel := None; model := None |}
    = Error "Model missing but delimiter function Object() { [native code] } expectedfor 'constructor' completions provider.".
Proof. split; vm_compute; reflexivity. Qed.

End GetModelInfo.

(* ===================================================================== *)
(** * Selection of the completion provider                                *)
(* ===================================================================== *)

Module CreateProvider.

(** The values of [AUTOCOMPLETE_PROVIDER_ID] (each key is its own value). *)
Definition AUTOCOMPLETE_PROVIDER_ID : list string :=
  [ "fireworks"; "openaicompatible"; "openai"; "unstable-openai"; "azure-openai";
    "experimental-openaicompatible"; "aws-bedrock"; "anthropic"; "google"; "gemini";
    "unstable-gemini"; "experimental-ollama"; "unstable-ollama" ].

(** The provider factories the module imports. *)
Inductive ProviderFactory :=
  | createFireworksProvider
  | createOpenAICompatibleProviderConfig
  | createUnstableOpenAIProviderConfig
  | createExperimentalOpenAICompatibleProvider
  | createAnthropicProvider
  | createGeminiProviderConfig
  | createExperimentalOllamaProvider.

Record AuthStatus := {
  authenticated : bool;
  isDotCom : bool;
  configOverwrites : option GetModelInfo.CodyLLMSiteConfiguration
}.

(** The fields of the resolved configuration that are read. *)
Record ResolvedConfiguration := {
  autocompleteAdvancedProvider : option string;
  autocompleteAdvancedModel : option string;
  anonymousUserID : string
}.

(** The answer of [getExperimentModel]. *)
Record ExperimentModel := { experiment_provider : string; experiment_model : string }.

Record ProviderFactoryParams := {
  params_authStatus : AuthStatus;
  params_model : option GetModelInfo.Model;
  params_legacyModel : option string;
  params_anonymousUserID : string;
  params_provider : string
}.

(** [authStatus.configOverwrites?.completionModel?.includes('claude')]. *)
Definition completionModelIncludesClaude (authStatus : AuthStatus) : bool :=
  match configOverwrites authStatus ≫= GetModelInfo.completionModel with
  | Some name => Js.includes name "claude"
  | None => false
  end.

(** [getProviderCreator]; the error logged for an unrecognized provider is
    not part of the model. *)
Definition getProviderCreator (provider : string) (authStatus : AuthStatus)
    : option ProviderFactory :=
  if String.eqb provider "fireworks" then Some createFireworksProvider
  else if String.eqb provider "openaicompatible"
  then Some createOpenAICompatibleProviderConfig
  else if String.eqb provider "openai" || String.eqb provider "unstable-openai"
          || String.eqb provider "azure-openai"
  then Some createUnstableOpenAIProviderConfig
  else if String.eqb provider "experimental-openaicompatible"
  then Some createExperimentalOpenAICompatibleProvider
  else if String.eqb provider "anthropic" || String.eqb provider "aws-bedrock"
          || (String.eqb provider "google" && completionModelIncludesClaude authStatus)
  then Some createAnthropicProvider
  else if String.eqb provider "google" || String.eqb provider "gemini"
          || String.eqb provider "unstable-gemini"
  then Some createGeminiProviderConfig
  else if String.eqb provider "experimental-ollama"
          || String.eqb provider "unstable-ollama"
  then Some createExperimentalOllamaProvider
  else None.

Section Factories.

(** The factories of the other provider modules. *)
Variable externalFactory :
  ProviderFactory → ProviderFactoryParams → CreateInlineCompletionItemProvider.Provider.

(** Calling a factory; the Ollama factory is the [createProvider] defined
    next to [ExperimentalOllamaProvider]. *)
Definition callFactory (factory : ProviderFactory) (params : ProviderFactoryParams)
    : CreateInlineCompletionItemProvider.Provider :=
  match factory with
  | createExperimentalOllamaProvider =>
      {| CreateInlineCompletionItemProvider.id := "experimental-ollama";
         CreateInlineCompletionItemProvider.legacyModel := "" |}
  | _ => externalFactory factory params
  end.

Definition createProviderHelper (authStatus : AuthStatus) (legacyModel : option string)
    (model : option GetModelInfo.Model) (provider : string)
    (config : ResolvedConfiguration)
    : option CreateInlineCompletionItemProvider.Provider :=
  match getProviderCreator provider authStatus with
  | Some providerCreator =>
      Some (callFactory providerCreator
              {| params_authStatus := authStatus;
                 params_model := model;
                 params_legacyModel := legacyModel;
                 params_anonymousUserID := anonymousUserID config;
                 params_provider := provider |})
  | None => None
  end.

(** One emission of [createProvider()]: [experimentModel] answers
    [getExperimentModel(isDotCom(authStatus))] and [defaultModel] is the
    default autocomplete model read by [getModelInfo]. *)
Definition createProvider (config : ResolvedConfiguration) (authStatus : AuthStatus)
    (experimentModel : bool → option ExperimentModel)
    (defaultModel : option GetModelInfo.Model)
    : option CreateInlineCompletionItemProvider.Provider :=
  if negb (authenticated authStatus) then None
  else if Js.truthy (autocompleteAdvancedProvider config) then
    createProviderHelper authStatus
      (if Js.truthy (autocompleteAdvancedModel config)
       then autocompleteAdvancedModel config else None)
      None (default "" (autocompleteAdvancedProvider config)) config
  else
    match experimentModel (isDotCom authStatus) with
    | Some configFromFeatureFlags =>
        createProviderHelper authStatus (Some (experiment_model configFromFeatureFlags))
          None (experiment_provider configFromFeatureFlags) config
    | None =>
        match GetModelInfo.getModelInfo defaultModel (configOverwrites authStatus) with
        | GetModelInfo.Error _ => None
        | GetModelInfo.Info info =>
            createProviderHelper authStatus (GetModelInfo.legacyModel info)
              (GetModelInfo.model info) (GetModelInfo.provider info) config
        end
    end.

End Factories.

(** ** Verified properties of the selection *)

Ltac case_provider provider :=
  repeat match goal with
         | |- context [String.eqb provider ?literal] =>
             destruct (String.eqb_spec provider literal) as [-> | ?]
         end.

Lemma getProviderCreator_is_Some provider authStatus :
  is_Some (getProviderCreator provider authStatus)
  ↔ provider ∈ AUTOCOMPLETE_PROVIDER_ID.
Proof.
  unfold AUTOCOMPLETE_PROVIDER_ID. split.
  - unfold getProviderCreator. case_provider provider; cbn;
      try solve [intros _;
                 repeat first [apply list_elem_of_here | apply list_elem_of_further]].
    intros [? ?]. discriminate.
  - intros Hin.
    repeat (apply elem_of_cons in Hin as [-> | Hin]);
      try (apply elem_of_nil in Hin; contradiction);
      unfold getProviderCreator; cbn;
      try destruct (completionModelIncludesClaude authStatus); eauto.
Qed.

(** X4: A creator is found exactly for the thirteen provider ids of
    [AUTOCOMPLETE_PROVIDER_ID]; every other provider name yields none. *)
Theorem getProviderCreator_recognized provider authStatus :
  is_Some (getProviderCreator provider authStatus)
  ↔ provider ∈ AUTOCOMPLETE_PROVIDER_ID.
Proof. apply getProviderCreator_is_Some. Qed.

(** X5: The Anthropic factory serves "anthropic", "aws-bedrock", and "google"
    when the site's completion model name includes "claude"; "google"
    otherwise goes to the Gemini factory. *)
Theorem getProviderCreator_anthropic provider authStatus :
  (getProviderCreator provider authStatus = Some createAnthropicProvider
   ↔ provider = "anthropic" ∨ provider = "aws-bedrock"
     ∨ (provider = "google" ∧ completionModelIncludesClaude authStatus = true))
  ∧ (completionModelIncludesClaude authStatus = false →
     getProviderCreator "google" authStatus = Some createGeminiProviderConfig).
Proof.
  split; [split |].
  - unfold getProviderCreator. case_provider provider; cbn; try discriminate; eauto.
    destruct (completionModelIncludesClaude authStatus); cbn; [eauto | discriminate].
  - intros [-> | [-> | [-> Hclaude]]]; unfold getProviderCreator; cbn;
      [reflexivity | reflexivity |]. rewrite Hclaude. reflexivity.
  - intros Hclaude. unfold getProviderCreator. cbn. rewrite Hclaude. reflexivity.
Qed.

Lemma createProviderHelper_is_Some externalFactory authStatus legacyModel model provider
    config :
  is_Some (createProviderHelper externalFactory authStatus legacyModel model provider
             config)
  ↔ provider ∈ AUTOCOMPLETE_PROVIDER_ID.
Proof.
  rewrite <- (getProviderCreator_is_Some provider authStatus).
  unfold createProviderHelper.
  destruct (getProviderCreator provider authStatus); split; intros [? ?]; eauto;
    discriminate.
Qed.

Lemma delimiters_key_not_empty key delimiter :
  GetModelInfo.delimiters !! key = Some delimiter → key ≠ EmptyString.
Proof. intros Hlookup ->. vm_compute in Hlookup. discriminate. Qed.

(** X6: A provider set in the local settings decides alone: for a signed-in
    user the experiment model and the default model play no role, and a
    provider is created exactly when the configured name is one of the
    recognized ids. *)
Theorem createProvider_local_setting_precedence externalFactory config authStatus
    experimentModel experimentModel' defaultModel defaultModel' :
  authenticated authStatus = true →
  Js.truthy (autocompleteAdvancedProvider config) = true →
  createProvider externalFactory config authStatus experimentModel defaultModel
  = createProvider externalFactory config authStatus experimentModel' defaultModel'
  ∧ (is_Some (createProvider externalFactory config authStatus experimentModel
                defaultModel)
     ↔ default "" (autocompleteAdvancedProvider config) ∈ AUTOCOMPLETE_PROVIDER_ID).
Proof.
  intros Hauth Hlocal. unfold createProvider. rewrite Hauth, Hlocal. cbn [negb].
  split; [reflexivity | apply createProviderHelper_is_Some].
Qed.

(** X7: Without a local setting, an experiment model or a default model, a
    site configuration whose provider has a delimiter and whose completion
    model is [before<delimiter>after] selects the factory of [before] and
    passes it the model [after]. *)
Theorem createProvider_site_config externalFactory config authStatus experimentModel
    siteProvider c before after factory :
  authenticated authStatus = true →
  Js.truthy (autocompleteAdvancedProvider config) = false →
  experimentModel (isDotCom authStatus) = None →
  configOverwrites authStatus
  = Some {| GetModelInfo.site_provider := Some siteProvider;
            GetModelInfo.completionModel := Some (before +:+ String c after) |} →
  GetModelInfo.delimiters !! siteProvider = Some (String c EmptyString) →
  Js.indexOf before (String c EmptyString) = (-1)%Z →
  before ≠ EmptyString →
  after ≠ EmptyString →
  getProviderCreator before authStatus = Some factory →
  createProvider externalFactory config authStatus experimentModel None
  = Some (callFactory externalFactory factory
            {| params_authStatus := authStatus;
               params_model := None;
               params_legacyModel := Some after;
               params_anonymousUserID := anonymousUserID config;
               params_provider := before |}).
Proof.
  intros Hauth Hlocal Hexperiment Hsite Hdelimiter Habsent Hbefore Hafter Hfactory.
  unfold createProvider. rewrite Hauth, Hlocal, Hexperiment. cbn [negb].
  unfold GetModelInfo.getModelInfo. rewrite Hsite.
  cbn [mbind option_bind GetModelInfo.site_provider GetModelInfo.completionModel].
  change (default "" (Some siteProvider)) with siteProvider.
  assert (Htruthy : Js.truthy (Some siteProvider) = true).
  { cbn. apply GetModelInfo.nonEmpty_true.
    exact (delimiters_key_not_empty _ _ Hdelimiter). }
  rewrite Htruthy.
  rewrite (GetModelInfo.parse_splits_at_first_delimiter_aux
             {| GetModelInfo.provider := siteProvider;
                GetModelInfo.legacyModel := Some (before +:+ String c after);
                GetModelInfo.model := None |}
             c before after Hdelimiter eq_refl Habsent Hbefore Hafter).
  cbn [GetModelInfo.legacyModel GetModelInfo.model GetModelInfo.provider].
  unfold createProviderHelper. rewrite Hfactory. reflexivity.
Qed.

(** X8: With the same route, a completion model without the delimiter is not
    rejected by the parser; the provider becomes the name without its last
    character, and no provider is created unless that is a recognized
    id. *)
Theorem createProvider_site_config_without_delimiter externalFactory config authStatus
    experimentModel siteProvider c init last :
  authenticated authStatus = true →
  Js.truthy (autocompleteAdvancedProvider config) = false →
  experimentModel (isDotCom authStatus) = None →
  configOverwrites authStatus
  = Some {| GetModelInfo.site_provider := Some siteProvider;
            GetModelInfo.completionModel := Some (init +:+ String last EmptyString) |} →
  GetModelInfo.delimiters !! siteProvider = Some (String c EmptyString) →
  Js.indexOf (init +:+ String last EmptyString) (String c EmptyString) = (-1)%Z →
  init ≠ EmptyString →
  init ∉ AUTOCOMPLETE_PROVIDER_ID →
  createProvider externalFactory config authStatus experimentModel None = None.
Proof.
  intros Hauth Hlocal Hexperiment Hsite Hdelimiter Habsent Hinit Hunknown.
  unfold createProvider. rewrite Hauth, Hlocal, Hexperiment. cbn [negb].
  unfold GetModelInfo.getModelInfo. rewrite Hsite.
  cbn [mbind option_bind GetModelInfo.site_provider GetModelInfo.completionModel].
  change (default "" (Some siteProvider)) with siteProvider.
  assert (Htruthy : Js.truthy (Some siteProvider) = true).
  { cbn. apply GetModelInfo.nonEmpty_true.
    exact (delimiters_key_not_empty _ _ Hdelimiter). }
  rewrite Htruthy.
  rewrite (GetModelInfo.parse_without_delimiter_aux
             {| GetModelInfo.provider := siteProvider;
                GetModelInfo.legacyModel := Some (init +:+ String last EmptyString);
                GetModelInfo.model := None |}
             c init last Hdelimiter eq_refl Habsent Hinit).
  cbn [GetModelInfo.legacyModel GetModelInfo.model GetModelInfo.provider].
  destruct (createProviderHelper _ _ _ _ _ _) as [created|] eqn:Hcreated;
    [| reflexivity].
  exfalso. apply Hunknown.
  apply (createProviderHelper_is_Some externalFactory authStatus
           (Some (init +:+ String last EmptyString)) None init config).
  rewrite Hcreated. eauto.
Qed.

(** X9: Registration on top of the selection: for a signed-in user whose local
    settings name a provider that is not recognized, registration throws
    inside the agent and registers nothing outside of it. *)
Theorem unrecognized_provider_registration externalFactory stringify config authStatus
    experimentModel defaultModel configuration languageIds triggerDelaySetting :
  authenticated authStatus = true →
  Js.truthy (autocompleteAdvancedProvider config) = true →
  default "" (autocompleteAdvancedProvider config) ∉ AUTOCOMPLETE_PROVIDER_ID →
  let registration :=
    CreateInlineCompletionItemProvider.createInlineCompletionItemProvider stringify
      configuration {| CreateInlineCompletionItemProvider.authenticated := true |}
      languageIds
      (createProvider externalFactory config authStatus experimentModel defaultModel)
      triggerDelaySetting in
  if CreateInlineCompletionItemProvider.isRunningInsideAgent configuration
  then ∃ message, registration = CreateInlineCompletionItemProvider.Throws message
  else registration = CreateInlineCompletionItemProvider.Registered [].
Proof.
  intros Hauth Hlocal Hunknown registration. subst registration.
  assert (Hnone : createProvider externalFactory config authStatus experimentModel
                    defaultModel = None).
  { unfold createProvider. rewrite Hauth, Hlocal. cbn [negb].
    destruct (createProviderHelper _ _ _ _ _ _) as [created|] eqn:Hcreated;
      [| reflexivity].
    exfalso. apply Hunknown.
    eapply createProviderHelper_is_Some. rewrite Hcreated. eauto. }
  rewrite Hnone.
  unfold CreateInlineCompletionItemProvider.createInlineCompletionItemProvider. cbn.
  destruct (CreateInlineCompletionItemProvider.isRunningInsideAgent configuration);
    [eexists |]; reflexivity.
Qed.

(** ** Concrete selections, after [create-provider.test.ts] *)

Ltac not_a_provider_id :=
  let H := fresh "Hin" in
  intros H; unfold AUTOCOMPLETE_PROVIDER_ID in H;
  repeat (apply elem_of_cons in H as [H | H]; [discriminate H |]);
  apply elem_of_nil in H; exact H.

(** A stand-in for the factories of the other provider modules: the
    provider carries the id and the legacy model it was asked for. *)
Definition echoFactory (factory : ProviderFactory) (params : ProviderFactoryParams)
    : CreateInlineCompletionItemProvider.Provider :=
  {| CreateInlineCompletionItemProvider.id := params_provider params;
     CreateInlineCompletionItemProvider.legacyModel :=
       default "" (params_legacyModel params) |}.

Definition localSettings (provider : option string) : ResolvedConfiguration :=
  {| autocompleteAdvancedProvider := provider; autocompleteAdvancedModel := None;
     anonymousUserID := "anonymous" |}.

Definition siteStatus (provider model : string) : AuthStatus :=
  {| authenticated := true; isDotCom := true;
     configOverwrites :=
       Some {| GetModelInfo.site_provider := Some provider;
               GetModelInfo.completionModel := Some model |} |}.

Lemma createProvider_local_setting_precedence_witness :
  is_Some (createProvider echoFactory (localSettings (Some "unstable-openai"))
             (siteStatus "fireworks" "starcoder-hybrid") (λ _, None) None).
Proof.
  apply (createProvider_local_setting_precedence echoFactory
           (localSettings (Some "unstable-openai"))
           (siteStatus "fireworks" "starcoder-hybrid") (λ _, None) (λ _, None) None None
           eq_refl eq_refl).
  unfold AUTOCOMPLETE_PROVIDER_ID. cbn.
  repeat first [apply list_elem_of_here | apply list_elem_of_further].
Defined.

Lemma createProvider_site_config_witness :
  createProvider echoFactory (localSettings None)
    (siteStatus "sourcegraph" "fireworks/starcoder") (λ _, None) None
  = Some {| CreateInlineCompletionItemProvider.id := "fireworks";
            CreateInlineCompletionItemProvider.legacyModel := "starcoder" |}.
Proof.
  rewrite (createProvider_site_config echoFactory (localSettings None)
             (siteStatus "sourcegraph" "fireworks/starcoder") (λ _, None)
             "sourcegraph" (Ascii.ascii_of_nat 47) "fireworks" "starcoder"
             createFireworksProvider);
    try reflexivity; discriminate.
Defined.

Lemma createProvider_site_config_without_delimiter_witness :
  createProvider echoFactory (localSettings None)
    (siteStatus "sourcegraph" "hello-world") (λ _, None) None
  = None.
Proof.
  apply (createProvider_site_config_without_delimiter echoFactory (localSettings None)
           (siteStatus "sourcegraph" "hello-world") (λ _, None)
           "sourcegraph" (Ascii.ascii_of_nat 47) "hello-worl" (Ascii.ascii_of_nat 100));
    try reflexivity; try discriminate.
  not_a_provider_id.
Defined.

Lemma unrecognized_provider_registration_witness :
  ∃ message,
    CreateInlineCompletionItemProvider.createInlineCompletionItemProvider (λ _, "{}")
      CreateInlineCompletionItemProvider.agentConfiguration
      {| CreateInlineCompletionItemProvider.authenticated := true |} ["python"; "go"]
      (createProvider echoFactory (localSettings (Some "nasa-ai"))
         (siteStatus "fireworks" "starcoder-hybrid") (λ _, None) None)
      None
    = CreateInlineCompletionItemProvider.Throws message.
Proof.
  apply (unrecognized_provider_registration echoFactory (λ _, "{}")
           (localSettings (Some "nasa-ai")) (siteStatus "fireworks" "starcoder-hybrid")
           (λ _, None) None CreateInlineCompletionItemProvider.agentConfiguration
           ["python"; "go"] None eq_refl eq_refl).
  cbn. not_a_provider_id.
Defined.

End CreateProvider.

(* ===================================================================== *)
(** * The completion provider configuration singleton                     *)
(** ([completion-provider-config.ts])                                     *)
(* ===================================================================== *)

Module CompletionProviderConfig.

Import ContextStrategyFactory.

Local Open Scope Z_scope.

(** The members of [flagsToResolve]. *)
Inductive FeatureFlag :=
  | CodyAutocompleteUserLatency
  | CodyAutocompleteTracing
  | CodyAutocompleteContextExtendLanguagePool
  | CodyAutocompletePreloadingExperimentBaseFeatureFlag
  | CodyAutocompletePreloadingExperimentVariant1
  | CodyAutocompletePreloadingExperimentVariant2
  | CodyAutocompletePreloadingExperimentVariant3
  | CodyAutocompleteContextExperimentBaseFeatureFlag
  | CodyAutocompleteContextExperimentVariant1
  | CodyAutocompleteContextExperimentVariant2
  | CodyAutocompleteContextExperimentVariant3
  | CodyAutocompleteContextExperimentVariant4
  | CodyAutocompleteContextExperimentControl
  | codyAutocompleteDisableArtificialDelay.

(** The fields of [ClientConfiguration] that are read. *)
Record ClientConfiguration := {
  autocompleteExperimentalGraphContext : option string;
  autocompleteExperimentalPreloadDebounceInterval : option Z
}.

(** A value or a thrown error. *)
Inductive Completion (A : Type) :=
  | Returns (value : A)
  | Throws (message : string).
Arguments Returns {A} value.
Arguments Throws {A} message.

Inductive PreloadingExperimentGroup := variant1 | variant2 | variant3 | control.

(** The calls that write the private [_config] field. *)
Inductive Call :=
  | init (config : ClientConfiguration)
  | setConfig (config : ClientConfiguration).

(** The [_config] field after a call ([init] also evaluates the flags,
    which leaves the field alone). *)
Definition call (c : Call) (_config : option ClientConfiguration)
    : option ClientConfiguration :=
  match c with
  | init config => Some config
  | setConfig config => Some config
  end.

(** The private getter [config]. *)
Definition config (_config : option ClientConfiguration)
    : Completion ClientConfiguration :=
  match _config with
  | Some c => Returns c
  | None => Throws "CompletionProviderConfig is not initialized"
  end.

(** The [case] labels of the [contextStrategy] getter. *)
Definition strategyOfSetting (setting : string) : option ContextStrategy :=
  if String.eqb setting "lsp-light" then Some LspLight
  else if String.eqb setting "tsc-mixed" then Some TscMixed
  else if String.eqb setting "tsc" then Some Tsc
  else if String.eqb setting "bfg" then Some Bfg
  else if String.eqb setting "bfg-mixed" then Some BfgMixed
  else if String.eqb setting "jaccard-similarity" then Some JaccardSimilarity
  else if String.eqb setting "new-jaccard-similarity" then Some NewJaccardSimilarity
  else if String.eqb setting "recent-edits" then Some RecentEdits
  else if String.eqb setting "recent-edits-1m" then Some RecentEdits1m
  else if String.eqb setting "recent-edits-5m" then Some RecentEdits5m
  else if String.eqb setting "recent-edits-mixed" then Some RecentEditsMixed
  else None.

Section Environment.

(** [featureFlagProvider.instance.getFromCache] and
    [isRunningInsideAgent()]. *)
Variable getFromCache : FeatureFlag → option bool.
Variable isRunningInsideAgent : bool.

Definition getPrefetchedFlag (flag : FeatureFlag) : bool :=
  default false (getFromCache flag).

Definition experimentBasedContextStrategy : ContextStrategy :=
  let defaultContextStrategy := JaccardSimilarity in
  let isContextExperimentFlagEnabled :=
    getPrefetchedFlag CodyAutocompleteContextExperimentBaseFeatureFlag in
  if isRunningInsideAgent || negb isContextExperimentFlagEnabled
  then defaultContextStrategy
  else if getPrefetchedFlag CodyAutocompleteContextExperimentVariant1 then RecentEdits1m
  else if getPrefetchedFlag CodyAutocompleteContextExperimentVariant2 then RecentEdits5m
  else if getPrefetchedFlag CodyAutocompleteContextExperimentVariant3
  then RecentEditsMixed
  else if getPrefetchedFlag CodyAutocompleteContextExperimentVariant4 then NoStrategy
  else if getPrefetchedFlag CodyAutocompleteContextExperimentControl
  then defaultContextStrategy
  else defaultContextStrategy.

(** The getter [contextStrategy]. *)
Definition contextStrategy (_config : option ClientConfiguration)
    : Completion ContextStrategy :=
  match config _config with
  | Throws message => Throws message
  | Returns c =>
      match autocompleteExperimentalGraphContext c ≫= strategyOfSetting with
      | Some strategy => Returns strategy
      | None => Returns experimentBasedContextStrategy
      end
  end.

Definition getPreloadingExperimentGroup : PreloadingExperimentGroup :=
  if getPrefetchedFlag CodyAutocompletePreloadingExperimentBaseFeatureFlag then
    if getPrefetchedFlag CodyAutocompletePreloadingExperimentVariant1 then variant1
    else if getPrefetchedFlag CodyAutocompletePreloadingExperimentVariant2 then
      if getPrefetchedFlag CodyAutocompletePreloadingExperimentVariant3 then variant2
      else variant3
    else control
  else control.

(** The getter [autocompletePreloadDebounceInterval]. *)
Definition autocompletePreloadDebounceInterval (_config : option ClientConfiguration)
    : Completion Z :=
  match config _config with
  | Throws message => Throws message
  | Returns c =>
      match autocompleteExperimentalPreloadDebounceInterval c with
      | Some localInterval =>
          if 0 <? localInterval then Returns localInterval
          else
            Returns match getPreloadingExperimentGroup with
                    | variant1 => 150
                    | variant2 => 250
                    | variant3 => 350
                    | control => 0
                    end
      | None =>
          Returns match getPreloadingExperimentGroup with
                  | variant1 => 150
                  | variant2 => 250
                  | variant3 => 350
                  | control => 0
                  end
      end
  end.

End Environment.

(** ** Verified properties of the configuration *)

Lemma strategyOfSetting_name setting strategy :
  strategyOfSetting setting = Some strategy →
  setting = strategyName strategy ∧ strategy ≠ NoStrategy ∧ strategy ≠ RecentCopy.
Proof.
  unfold strategyOfSetting.
  repeat match goal with
         | |- context [String.eqb setting ?literal] =>
             destruct (String.eqb_spec setting literal) as [-> | ?]
         end;
    intros [= <-]; split; try reflexivity; split; discriminate.
Qed.

Ltac case_context_flags getFromCache isRunningInsideAgent :=
  destruct isRunningInsideAgent;
  destruct (getPrefetchedFlag getFromCache
              CodyAutocompleteContextExperimentBaseFeatureFlag) eqn:?;
  destruct (getPrefetchedFlag getFromCache CodyAutocompleteContextExperimentVariant1)
    eqn:?;
  destruct (getPrefetchedFlag getFromCache CodyAutocompleteContextExperimentVariant2)
    eqn:?;
  destruct (getPrefetchedFlag getFromCache CodyAutocompleteContextExperimentVariant3)
    eqn:?;
  destruct (getPrefetchedFlag getFromCache CodyAutocompleteContextExperimentVariant4)
    eqn:?;
  destruct (getPrefetchedFlag getFromCache CodyAutocompleteContextExperimentControl)
    eqn:?.

(** X10: Each of the eleven strategy names of the getter's [switch], when
    configured, is returned as such, whatever the feature flags and the
    host say. *)
Theorem contextStrategy_configured getFromCache isRunningInsideAgent strategy debounce :
  strategy ≠ NoStrategy →
  strategy ≠ RecentCopy →
  contextStrategy getFromCache isRunningInsideAgent
    (Some {| autocompleteExperimentalGraphContext := Some (strategyName strategy);
             autocompleteExperimentalPreloadDebounceInterval := debounce |})
  = Returns strategy.
Proof.
  intros Hnone Hcopy. destruct strategy; try contradiction; reflexivity.
Qed.

(** X11: What the getter returns is either the configured name, or the outcome
    of the experiment.  It is never "recent-copy", and it is "none" only
    through the fourth experiment variant, outside the agent: the settings
    "none" and "recent-copy" are not honoured. *)
Theorem contextStrategy_sound getFromCache isRunningInsideAgent c strategy :
  contextStrategy getFromCache isRunningInsideAgent (Some c) = Returns strategy →
  (autocompleteExperimentalGraphContext c = Some (strategyName strategy)
   ∨ strategy = experimentBasedContextStrategy getFromCache isRunningInsideAgent)
  ∧ strategy ≠ RecentCopy
  ∧ (strategy = NoStrategy →
     isRunningInsideAgent = false
     ∧ getPrefetchedFlag getFromCache CodyAutocompleteContextExperimentBaseFeatureFlag
       = true
     ∧ getPrefetchedFlag getFromCache CodyAutocompleteContextExperimentVariant4 = true).
Proof.
  unfold contextStrategy. cbn [config].
  destruct (autocompleteExperimentalGraphContext c) as [setting|]; cbn [mbind option_bind].
  - destruct (strategyOfSetting setting) as [s|] eqn:Hsetting.
    + intros [= <-]. apply strategyOfSetting_name in Hsetting as (-> & Hnone & Hcopy).
      split; [left; reflexivity |]. split; [exact Hcopy |]. contradiction.
    + intros [= <-]. split; [right; reflexivity |].
      unfold experimentBasedContextStrategy.
      case_context_flags getFromCache isRunningInsideAgent;
        cbn; (split; [discriminate |]); intros; try discriminate; auto.
  - intros [= <-]. split; [right; reflexivity |].
    unfold experimentBasedContextStrategy.
    case_context_flags getFromCache isRunningInsideAgent;
      cbn; (split; [discriminate |]); intros; try discriminate; auto.
Qed.

(** X12: The control flag of the context experiment has no effect: two flag
    caches that differ on it only select the same strategy. *)
Theorem experiment_ignores_control getFromCache getFromCache' isRunningInsideAgent :
  (∀ flag, flag ≠ CodyAutocompleteContextExperimentControl →
           getFromCache flag = getFromCache' flag) →
  experimentBasedContextStrategy getFromCache isRunningInsideAgent
  = experimentBasedContextStrategy getFromCache' isRunningInsideAgent.
Proof.
  intros Hsame. unfold experimentBasedContextStrategy, getPrefetchedFlag.
  rewrite <- !Hsame by discriminate.
  destruct (default false (getFromCache CodyAutocompleteContextExperimentControl));
    destruct (default false (getFromCache' CodyAutocompleteContextExperimentControl));
    reflexivity.
Qed.

(** X13: Inside the agent, a setting that does not name the returned strategy
    always leads to the Jaccard similarity retriever alone, for every
    document. *)
Theorem agent_default_retrievers getFromCache c strategy isSupportedForLanguageId
    loadTscRetriever createBfgRetriever document :
  contextStrategy getFromCache true (Some c) = Returns strategy →
  autocompleteExperimentalGraphContext c ≠ Some (strategyName strategy) →
  retrievers (getStrategy isSupportedForLanguageId
                (new loadTscRetriever strategy createBfgRetriever) document)
  = [JaccardSimilarityRetriever].
Proof.
  unfold contextStrategy. cbn [config]. intros Hreturned Hsetting.
  destruct (autocompleteExperimentalGraphContext c) as [setting|];
    cbn [mbind option_bind] in Hreturned.
  - destruct (strategyOfSetting setting) as [s|] eqn:Hs.
    + injection Hreturned as <-.
      apply strategyOfSetting_name in Hs as (-> & _). contradiction.
    + injection Hreturned as <-. reflexivity.
  - injection Hreturned as <-. reflexivity.
Qed.

(** X14: The preload debounce interval is never negative; a positive local
    setting is returned as it is; otherwise the interval is 150, 250, 350
    or 0, where 250 needs the second and the third variant flag and 350 the
    second without the third. *)
Theorem preload_debounce_interval getFromCache c interval :
  autocompletePreloadDebounceInterval getFromCache (Some c) = Returns interval →
  let flag := getPrefetchedFlag getFromCache in
  let base := flag CodyAutocompletePreloadingExperimentBaseFeatureFlag in
  let first := flag CodyAutocompletePreloadingExperimentVariant1 in
  let second := flag CodyAutocompletePreloadingExperimentVariant2 in
  let third := flag CodyAutocompletePreloadingExperimentVariant3 in
  0 ≤ interval
  ∧ match autocompleteExperimentalPreloadDebounceInterval c with
    | Some localInterval =>
        0 < localInterval → interval = localInterval
    | None => True
    end
  ∧ ((∀ localInterval,
        autocompleteExperimentalPreloadDebounceInterval c = Some localInterval →
        localInterval ≤ 0) →
     (interval = 150 ↔ base && first = true)
     ∧ (interval = 250 ↔ base && negb first && second && third = true)
     ∧ (interval = 350 ↔ base && negb first && second && negb third = true)
     ∧ (interval = 0 ↔ base && (first || second) = false)).
Proof.
  intros Hreturned flag base first second third.
  subst flag base first second third.
  unfold autocompletePreloadDebounceInterval, getPreloadingExperimentGroup in Hreturned.
  cbn [config] in Hreturned.
  destruct (autocompleteExperimentalPreloadDebounceInterval c) as [localInterval|].
  - destruct (Z.ltb_spec 0 localInterval) as [Hpos | Hnonpos].
    + injection Hreturned as <-. split; [lia |]. split; [reflexivity |].
      intros Hlocal. specialize (Hlocal localInterval eq_refl). lia.
    + injection Hreturned as <-.
      destruct (getPrefetchedFlag getFromCache
                  CodyAutocompletePreloadingExperimentBaseFeatureFlag);
        destruct (getPrefetchedFlag getFromCache
                    CodyAutocompletePreloadingExperimentVariant1);
        destruct (getPrefetchedFlag getFromCache
                    CodyAutocompletePreloadingExperimentVariant2);
        destruct (getPrefetchedFlag getFromCache
                    CodyAutocompletePreloadingExperimentVariant3);
        cbn; (split; [lia |]); (split; [lia |]); intros _;
        repeat split; intros; try lia; try discriminate; try reflexivity.
  - injection Hreturned as <-.
    destruct (getPrefetchedFlag getFromCache
                CodyAutocompletePreloadingExperimentBaseFeatureFlag);
      destruct (getPrefetchedFlag getFromCache
                  CodyAutocompletePreloadingExperimentVariant1);
      destruct (getPrefetchedFlag getFromCache
                  CodyAutocompletePreloadingExperimentVariant2);
      destruct (getPrefetchedFlag getFromCache
                  CodyAutocompletePreloadingExperimentVariant3);
      cbn; (split; [lia |]); (split; [exact I |]); intros _;
      repeat split; intros; try lia; try discriminate; try reflexivity.
Qed.

(** X15: The getters throw exactly as long as neither [init] nor [setConfig]
    has been called, and afterwards they read the configuration of the last
    call. *)
Theorem getters_after_calls getFromCache isRunningInsideAgent (calls : list Call) :
  let _config := foldl (λ state c, call c state) None calls in
  ((∃ message,
      contextStrategy getFromCache isRunningInsideAgent _config = Throws message)
   ↔ calls = [])
  ∧ ((∃ message, autocompletePreloadDebounceInterval getFromCache _config
                 = Throws message)
     ↔ calls = [])
  ∧ (∀ earlier last,
       calls = earlier ++ [last] →
       _config = Some match last with init c | setConfig c => c end).
Proof.
  intros _config. subst _config.
  destruct calls as [|first calls] using rev_ind.
  - cbn. split; [split; eauto |]. split; [split; eauto |].
    intros earlier last Hcalls. destruct earlier; discriminate.
  - rewrite foldl_app. cbn [foldl].
    assert (Hlast : call first (foldl (λ state c, call c state) None calls)
                    = Some match first with init c | setConfig c => c end)
      by (destruct first; reflexivity).
    rewrite Hlast.
    assert (Hne : calls ++ [first] ≠ []) by (destruct calls; discriminate).
    split; [| split].
    + split; [| contradiction].
      unfold contextStrategy. cbn [config].
      destruct (_ ≫= strategyOfSetting); intros [message Hm]; discriminate.
    + split; [| contradiction].
      unfold autocompletePreloadDebounceInterval. cbn [config].
      destruct (autocompleteExperimentalPreloadDebounceInterval _) as [l|];
        [destruct (0 <? l) |]; intros [message Hm]; discriminate.
    + intros earlier last Hcalls. apply app_inj_tail in Hcalls as [_ <-]. reflexivity.
Qed.

(** ** Concrete configurations *)

Definition allFlagsOff : FeatureFlag → option bool := λ _, None.

Definition onlyControlOn (flag : FeatureFlag) : option bool :=
  match flag with
  | CodyAutocompleteContextExperimentControl => Some true
  | _ => None
  end.

Lemma contextStrategy_configured_witness :
  contextStrategy allFlagsOff false
    (Some {| autocompleteExperimentalGraphContext := Some "bfg-mixed";
             autocompleteExperimentalPreloadDebounceInterval := None |})
  = Returns BfgMixed.
Proof.
  apply (contextStrategy_configured allFlagsOff false BfgMixed None); discriminate.
Defined.

Definition recentCopySetting : ClientConfiguration :=
  {| autocompleteExperimentalGraphContext := Some "recent-copy";
     autocompleteExperimentalPreloadDebounceInterval := None |}.

Lemma contextStrategy_sound_witness :
  contextStrategy allFlagsOff false (Some recentCopySetting) = Returns JaccardSimilarity
  ∧ JaccardSimilarity ≠ RecentCopy.
Proof.
  split; [reflexivity |].
  exact (proj1 (proj2 (contextStrategy_sound allFlagsOff false recentCopySetting
                         JaccardSimilarity eq_refl))).
Defined.

Lemma experiment_ignores_control_witness :
  experimentBasedContextStrategy allFlagsOff false
  = experimentBasedContextStrategy onlyControlOn false.
Proof.
  apply (experiment_ignores_control allFlagsOff onlyControlOn false).
  intros flag Hflag. destruct flag; try reflexivity. contradiction.
Defined.

Lemma agent_default_retrievers_witness :
  retrievers (getStrategy supportsTypescriptOnly
                (new (λ _, None) JaccardSimilarity None) {| languageId := "css" |})
  = [JaccardSimilarityRetriever].
Proof.
  apply (agent_default_retrievers allFlagsOff
           {| autocompleteExperimentalGraphContext := Some "none";
              autocompleteExperimentalPreloadDebounceInterval := None |}
           JaccardSimilarity supportsTypescriptOnly (λ _, None) None
           {| languageId := "css" |} eq_refl).
  discriminate.
Defined.

(** The base flag and the second variant flag, without the third. *)
Definition secondVariantOnly (flag : FeatureFlag) : option bool :=
  match flag with
  | CodyAutocompletePreloadingExperimentBaseFeatureFlag
  | CodyAutocompletePreloadingExperimentVariant2 => Some true
  | _ => None
  end.

Definition nonPositiveLocalInterval : ClientConfiguration :=
  {| autocompleteExperimentalGraphContext := None;
     autocompleteExperimentalPreloadDebounceInterval := Some 0 |}.

Lemma preload_debounce_interval_witness :
  autocompletePreloadDebounceInterval secondVariantOnly (Some nonPositiveLocalInterval)
  = Returns 350
  ∧ (0 ≤ 350)%Z.
Proof.
  split; [reflexivity |].
  exact (proj1 (preload_debounce_interval secondVariantOnly nonPositiveLocalInterval
                  350 eq_refl)).
Defined.

End CompletionProviderConfig.

(* ===================================================================== *)
(** * Construction of the providers compared side by side                 *)
(* ===================================================================== *)

Module MultiModelRegistration.

(** An entry of the [autocompleteExperimentalMultiModelCompletions]
    setting, as the user wrote it. *)
Record MultiModelSetting := {
  setting_provider : option string;
  setting_model : option string;
  setting_enableExperimentalFireworksOverrides : option bool;
  setting_context : string
}.

Record MultimodelSingleModelConfig := {
  provider : string;
  model : string;
  enableExperimentalFireworksOverrides : bool;
  context : string
}.

(** [config.configuration] and [config.clientState], as far as they are
    read or overridden. *)
Record Configuration := {
  resolved : CreateProvider.ResolvedConfiguration;
  telemetryLevel : string;
  autocompleteExperimentalFireworksOptions : option string;
  autocompleteExperimentalGraphContext : option string;
  autocompleteExperimentalMultiModelCompletions : option (list MultiModelSetting);
  autocompleteFirstCompletionTimeout : Z;
  autocompleteCompleteSuggestWidgetSelection : bool;
  autocompleteFormatOnAccept : bool;
  autocompleteDisableInsideComments : bool;
  isRunningInsideAgent : bool
}.

(** The arguments an [InlineCompletionItemProvider] is constructed with. *)
Record InlineCompletionItemProvider := {
  args_provider : CreateInlineCompletionItemProvider.Provider;
  triggerDelay : Z;
  firstCompletionTimeout : Z;
  completeSuggestWidgetSelection : bool;
  formatOnAccept : bool;
  disableInsideComments : bool;
  insideAgent : bool;
  noInlineAccept : bool
}.

Record providerConfig := {
  providerName : string;
  modelName : string;
  contextStrategy : string;
  completionsProvider : InlineCompletionItemProvider
}.

Inductive Disposable :=
  | RegisterCommand (command : string) (allCompletionsProviders : list providerConfig)
  | CompletionsProvider (target : InlineCompletionItemProvider).

(** The first loop: entries with a provider and a model. *)
Definition multiModelConfigsList (settings : list MultiModelSetting)
    : list MultimodelSingleModelConfig :=
  flat_map
    (λ currentProviderConfig,
       if Js.truthy (setting_provider currentProviderConfig)
          && Js.truthy (setting_model currentProviderConfig)
       then [ {| provider := default "" (setting_provider currentProviderConfig);
                 model := default "" (setting_model currentProviderConfig);
                 enableExperimentalFireworksOverrides :=
                   default false
                     (setting_enableExperimentalFireworksOverrides currentProviderConfig);
                 context := setting_context currentProviderConfig |} ]
       else [])
    settings.

(** The configuration handed to [createProviderHelper] for one entry. *)
Definition newConfig (config : Configuration)
    (currentProviderConfig : MultimodelSingleModelConfig) : Configuration :=
  {| resolved :=
       {| CreateProvider.autocompleteAdvancedProvider :=
            CreateProvider.autocompleteAdvancedProvider (resolved config);
          CreateProvider.autocompleteAdvancedModel := None;
          CreateProvider.anonymousUserID :=
            CreateProvider.anonymousUserID (resolved config) |};
     telemetryLevel := "off";
     autocompleteExperimentalFireworksOptions :=
       if enableExperimentalFireworksOverrides currentProviderConfig
       then autocompleteExperimentalFireworksOptions config else None;
     autocompleteExperimentalGraphContext := Some (context currentProviderConfig);
     autocompleteExperimentalMultiModelCompletions :=
       autocompleteExperimentalMultiModelCompletions config;
     autocompleteFirstCompletionTimeout := autocompleteFirstCompletionTimeout config;
     autocompleteCompleteSuggestWidgetSelection :=
       autocompleteCompleteSuggestWidgetSelection config;
     autocompleteFormatOnAccept := autocompleteFormatOnAccept config;
     autocompleteDisableInsideComments := autocompleteDisableInsideComments config;
     isRunningInsideAgent := isRunningInsideAgent config |}.

Section Factories.

Variable externalFactory :
  CreateProvider.ProviderFactory → CreateProvider.ProviderFactoryParams →
  CreateInlineCompletionItemProvider.Provider.

(** The second loop: one provider per entry whose provider name is
    served by a factory. *)
Definition allCompletionsProviders (config : Configuration)
    (authStatus : CreateProvider.AuthStatus) (triggerDelaySetting : option Z)
    (configs : list MultimodelSingleModelConfig) : list providerConfig :=
  flat_map
    (λ currentProviderConfig,
       match CreateProvider.createProviderHelper externalFactory authStatus
               (Some (model currentProviderConfig)) None
               (provider currentProviderConfig)
               (resolved (newConfig config currentProviderConfig)) with
       | Some created =>
           [ {| providerName := provider currentProviderConfig;
                modelName := model currentProviderConfig;
                completionsProvider :=
                  {| args_provider := created;
                     triggerDelay := default 0%Z triggerDelaySetting;
                     firstCompletionTimeout := autocompleteFirstCompletionTimeout config;
                     completeSuggestWidgetSelection :=
                       autocompleteCompleteSuggestWidgetSelection config;
                     formatOnAccept := autocompleteFormatOnAccept config;
                     disableInsideComments := autocompleteDisableInsideComments config;
                     insideAgent := isRunningInsideAgent config;
                     noInlineAccept := true |};
                contextStrategy := context currentProviderConfig |} ]
       | None => []
       end)
    configs.

(** The body of the [createDisposables] callback for one emission. *)
Definition createInlineCompletionItemFromMultipleProviders (config : Configuration)
    (authStatus : CreateProvider.AuthStatus) (triggerDelaySetting : option Z)
    : list Disposable :=
  match autocompleteExperimentalMultiModelCompletions config with
  | Some settings =>
      if negb (CreateProvider.authenticated authStatus) then []
      else
        let providers :=
          allCompletionsProviders config authStatus triggerDelaySetting
            (multiModelConfigsList settings) in
        RegisterCommand "cody.multi-model-autocomplete.manual-trigger" providers
        :: map (λ p, CompletionsProvider (completionsProvider p)) providers
  | None => []
  end.

End Factories.

(** An entry is compared when it names a provider and a model and the
    provider is one of the recognized ids. *)
Definition compared (setting : MultiModelSetting) : bool :=
  Js.truthy (setting_provider setting) && Js.truthy (setting_model setting)
  && bool_decide (default "" (setting_provider setting)
                  ∈ CreateProvider.AUTOCOMPLETE_PROVIDER_ID).

(** ** Verified properties of the construction *)

(** X24: For a signed-in user the registered command compares exactly the
    entries that name a provider and a model with a recognized provider id,
    in the order of the setting and under the names of the setting; every
    provider is built with [noInlineAccept]; and the disposables are the
    command followed by one provider per compared entry. *)
Theorem compared_providers externalFactory config authStatus triggerDelaySetting
    settings :
  CreateProvider.authenticated authStatus = true →
  autocompleteExperimentalMultiModelCompletions config = Some settings →
  ∃ providers,
    createInlineCompletionItemFromMultipleProviders externalFactory config authStatus
      triggerDelaySetting
    = RegisterCommand "cody.multi-model-autocomplete.manual-trigger" providers
      :: map (λ p, CompletionsProvider (completionsProvider p)) providers
    ∧ map (λ p, (providerName p, modelName p, contextStrategy p)) providers
      = map (λ setting, (default "" (setting_provider setting),
                         default "" (setting_model setting),
                         setting_context setting))
          (List.filter compared settings)
    ∧ Forall (λ p, noInlineAccept (completionsProvider p) = true) providers.
Proof.
  intros Hauth Hsettings.
  unfold createInlineCompletionItemFromMultipleProviders.
  rewrite Hsettings, Hauth. cbn [negb].
  eexists. split; [reflexivity |].
  clear Hsettings. unfold allCompletionsProviders, multiModelConfigsList.
  induction settings as [|setting settings [IHnames IHflag]].
  - split; [reflexivity | constructor].
  - cbn [flat_map List.filter]. unfold compared at 1.
    destruct (Js.truthy (setting_provider setting)
              && Js.truthy (setting_model setting)) eqn:Hnamed; cbn [andb app].
    + cbn [flat_map app].
      set (helper := CreateProvider.createProviderHelper _ _ _ _ _ _).
      assert (Hiff : is_Some helper
                     ↔ default "" (setting_provider setting)
                       ∈ CreateProvider.AUTOCOMPLETE_PROVIDER_ID)
        by apply CreateProvider.createProviderHelper_is_Some.
      destruct helper as [created|].
      * rewrite bool_decide_eq_true_2 by (apply Hiff; eauto).
        cbn. split; [f_equal; exact IHnames | constructor; [reflexivity | exact IHflag]].
      * rewrite bool_decide_eq_false_2
          by (intros Hin; apply Hiff in Hin as [? Hsome]; discriminate Hsome).
        cbn. split; [exact IHnames | exact IHflag].
    + cbn. split; [exact IHnames | exact IHflag].
Qed.

(** Nothing is registered for a user who is not signed in or when the
    setting is absent; and with the setting present and the user signed
    in, the command is registered even if no entry can be compared. *)
Theorem multi_model_registration_gate externalFactory config authStatus
    triggerDelaySetting :
  createInlineCompletionItemFromMultipleProviders externalFactory config authStatus
    triggerDelaySetting = []
  ↔ CreateProvider.authenticated authStatus = false
    ∨ autocompleteExperimentalMultiModelCompletions config = None.
Proof.
  unfold createInlineCompletionItemFromMultipleProviders.
  destruct (autocompleteExperimentalMultiModelCompletions config) as [settings|];
    destruct (CreateProvider.authenticated authStatus); cbn; split; eauto;
    try discriminate.
  intros [H | H]; discriminate.
Qed.

(** ** A setting with three entries *)

Definition comparisonSettings : list MultiModelSetting :=
  [ {| setting_provider := Some "fireworks"; setting_model := Some "starcoder-hybrid";
       setting_enableExperimentalFireworksOverrides := None;
       setting_context := "jaccard-similarity" |};
    {| setting_provider := Some "nasa-ai"; setting_model := Some "apollo";
       setting_enableExperimentalFireworksOverrides := Some true;
       setting_context := "bfg" |};
    {| setting_provider := None; setting_model := Some "claude-instant-1.2";
       setting_enableExperimentalFireworksOverrides := None;
       setting_context := "none" |} ].

Definition comparisonConfiguration : Configuration :=
  {| resolved := CreateProvider.localSettings None;
     telemetryLevel := "all";
     autocompleteExperimentalFireworksOptions := None;
     autocompleteExperimentalGraphContext := None;
     autocompleteExperimentalMultiModelCompletions := Some comparisonSettings;
     autocompleteFirstCompletionTimeout := 3500;
     autocompleteCompleteSuggestWidgetSelection := true;
     autocompleteFormatOnAccept := false;
     autocompleteDisableInsideComments := false;
     isRunningInsideAgent := false |}.

Lemma compared_providers_witness :
  ∃ providers,
    createInlineCompletionItemFromMultipleProviders CreateProvider.echoFactory
      comparisonConfiguration (CreateProvider.siteStatus "fireworks" "starcoder-hybrid")
      None
    = RegisterCommand "cody.multi-model-autocomplete.manual-trigger" providers
      :: map (λ p, CompletionsProvider (completionsProvider p)) providers
    ∧ map (λ p, (providerName p, modelName p, contextStrategy p)) providers
      = [ ("fireworks", "starcoder-hybrid", "jaccard-similarity") ].
Proof.
  destruct (compared_providers CreateProvider.echoFactory comparisonConfiguration
              (CreateProvider.siteStatus "fireworks" "starcoder-hybrid") None
              comparisonSettings eq_refl eq_refl)
    as (providers & Hregistered & Hnames & _).
  exists providers. split; [exact Hregistered |].
  rewrite Hnames. vm_compute. reflexivity.
Defined.

End MultiModelRegistration.

(* ===================================================================== *)
(** * The context block of the Ollama prompt                              *)
(* ===================================================================== *)

Module OllamaContext.

Import Ollama.

(** The line feed character. *)
Definition LF : Ascii.ascii := Ascii.ascii_of_nat 10.

(** ** Splitting and joining lines *)

Lemma string_app_assoc (a b c : string) : (a +:+ b) +:+ c = a +:+ (b +:+ c).
Proof.
  induction a as [|x a IH]; [reflexivity |].
  rewrite !Js.app_cons, IH. reflexivity.
Qed.

Lemma split_nonempty separator s : ∃ piece pieces, split separator s = piece :: pieces.
Proof.
  induction s as [|c s (piece & pieces & IH)]; cbn [split]; [eauto |].
  destruct (Ascii.eqb c separator); [eauto |]. rewrite IH. eauto.
Qed.

Lemma split_separator separator s :
  split separator (String separator s) = EmptyString :: split separator s.
Proof. cbn [split]. rewrite Ascii.eqb_refl. reflexivity. Qed.

(** Splitting at a separator splits both sides. *)
Lemma split_app_separator separator a b :
  split separator (a +:+ String separator b) = split separator a ++ split separator b.
Proof.
  induction a as [|c a IH].
  - rewrite Js.app_empty, split_separator. reflexivity.
  - rewrite Js.app_cons. cbn [split].
    destruct (Ascii.eqb c separator); rewrite IH; [reflexivity |].
    destruct (split_nonempty separator a) as (piece & pieces & ->). reflexivity.
Qed.

(** A string without the separator only extends the first piece of what
    follows it. *)
Lemma split_single_app separator s t :
  split separator s = [s] →
  ∃ piece pieces,
    split separator t = piece :: pieces
    ∧ split separator (s +:+ t) = (s +:+ piece) :: pieces.
Proof.
  induction s as [|c s IH]; intros Hsingle.
  - rewrite Js.app_empty. destruct (split_nonempty separator t) as (p & ps & Ht).
    exists p, ps. split; [exact Ht |]. rewrite Ht, Js.app_empty. reflexivity.
  - cbn [split] in Hsingle.
    destruct (Ascii.eqb c separator) eqn:Hc; [discriminate |].
    destruct (split_nonempty separator s) as (p & ps & Hs).
    rewrite Hs in Hsingle. injection Hsingle as -> ->.
    destruct (IH Hs) as (piece & pieces & Ht & Hst).
    exists piece, pieces. split; [exact Ht |].
    rewrite Js.app_cons. cbn [split]. rewrite Hc, Hst, Js.app_cons. reflexivity.
Qed.

(** The pieces of a split hold no separator. *)
Lemma split_pieces separator s piece :
  piece ∈ split separator s → split separator piece = [piece].
Proof.
  revert piece. induction s as [|c s IH]; intros piece Hin.
  - cbn [split] in Hin. apply list_elem_of_singleton in Hin as ->. reflexivity.
  - cbn [split] in Hin. destruct (Ascii.eqb c separator) eqn:Hc.
    + apply elem_of_cons in Hin as [-> | Hin]; [reflexivity | exact (IH _ Hin)].
    + destruct (split_nonempty separator s) as (p & ps & Hs).
      rewrite Hs in Hin, IH.
      apply elem_of_cons in Hin as [-> | Hin].
      * cbn [split]. rewrite Hc, (IH p (list_elem_of_here _ _)). reflexivity.
      * apply IH. apply list_elem_of_further. exact Hin.
Qed.

(** Joining lines with the separator and splitting again gives the lines
    back. *)
Lemma split_concat separator lines :
  lines ≠ [] →
  (∀ line, line ∈ lines → split separator line = [line]) →
  split separator (String.concat (String separator EmptyString) lines) = lines.
Proof.
  induction lines as [|line lines IH]; intros Hne Hlines; [contradiction |].
  destruct lines as [|line' lines].
  - cbn. apply Hlines. apply list_elem_of_here.
  - change (String.concat (String separator EmptyString) (line :: line' :: lines))
      with (line +:+ String separator
                       (String.concat (String separator EmptyString) (line' :: lines))).
    rewrite split_app_separator, IH.
    + rewrite (Hlines line (list_elem_of_here _ _)). reflexivity.
    + discriminate.
    + intros l Hl. apply Hlines. apply list_elem_of_further. exact Hl.
Qed.

(** The lines of blocks joined by an empty line are the lines of the
    blocks and empty lines. *)
Lemma split_blocks blocks line :
  line ∈ split LF (String.concat (newline +:+ newline) blocks) →
  line = EmptyString ∨ ∃ block, block ∈ blocks ∧ line ∈ split LF block.
Proof.
  induction blocks as [|block blocks IH]; intros Hin.
  - cbn in Hin. apply list_elem_of_singleton in Hin. left. exact Hin.
  - destruct blocks as [|block' blocks].
    + right. exists block. split; [apply list_elem_of_here | exact Hin].
    + change (String.concat (newline +:+ newline) (block :: block' :: blocks))
        with (block +:+ String LF
                (String LF (String.concat (newline +:+ newline) (block' :: blocks))))
        in Hin.
      rewrite split_app_separator, split_separator in Hin.
      apply elem_of_app in Hin as [Hin | Hin].
      * right. exists block. split; [apply list_elem_of_here | exact Hin].
      * apply elem_of_cons in Hin as [-> | Hin]; [left; reflexivity |].
        destruct (IH Hin) as [-> | (b & Hb & Hline)]; [left; reflexivity |].
        right. exists b. split; [apply list_elem_of_further; exact Hb | exact Hline].
Qed.

(** ** The context block *)

(** The lines of one rendered snippet: the file name line, then the lines
    of the snippet, each behind the comment start. *)
Lemma rendered_snippet_lines commentStart path content :
  split LF commentStart = [commentStart] →
  split LF path = [path] →
  split LF ((commentStart +:+ " Path: " +:+ path +:+ newline)
            +:+ String.concat newline
                  (map (λ line, commentStart +:+ " " +:+ line) (split LF content)))
  = (commentStart +:+ " Path: " +:+ path)
    :: map (λ line, commentStart +:+ " " +:+ line) (split LF content).
Proof.
  intros Hstart Hpath.
  assert (Hprefixed : ∀ text, split LF text = [text] →
                              split LF (commentStart +:+ " " +:+ text)
                              = [commentStart +:+ " " +:+ text]).
  { intros text Htext.
    destruct (split_single_app LF " " text eq_refl) as (p1 & ps1 & Ht & Hspace).
    rewrite Htext in Ht. injection Ht as <- <-.
    destruct (split_single_app LF commentStart (" " +:+ text) Hstart)
      as (p2 & ps2 & Hs & Hall).
    rewrite Hspace in Hs. injection Hs as <- <-. exact Hall. }
  assert (Hhead : split LF (commentStart +:+ " Path: " +:+ path)
                  = [commentStart +:+ " Path: " +:+ path]).
  { destruct (split_single_app LF "Path: " path eq_refl) as (p1 & ps1 & Hp & Hwith).
    rewrite Hpath in Hp. injection Hp as <- <-.
    exact (Hprefixed ("Path: " +:+ path) Hwith). }
  replace ((commentStart +:+ " Path: " +:+ path +:+ newline)
           +:+ String.concat newline
                 (map (λ line, commentStart +:+ " " +:+ line) (split LF content)))
    with ((commentStart +:+ " Path: " +:+ path)
          +:+ String LF
                (String.concat newline
                   (map (λ line, commentStart +:+ " " +:+ line) (split LF content)))).
  - rewrite split_app_separator, Hhead. cbn [app]. f_equal.
    apply split_concat.
    + destruct (split_nonempty LF content) as (p & ps & ->). discriminate.
    + intros line Hline.
      apply list_elem_of_fmap in Hline as (piece & -> & Hpiece).
      apply Hprefixed. exact (split_pieces LF content piece Hpiece).
  - unfold newline. fold LF.
    rewrite <- !string_app_assoc.
    rewrite (string_app_assoc _ (String LF EmptyString)). reflexivity.
Qed.

(** X26: With a comment start and a display path that hold no line feed, every
    line of the context block of the assembled prompt is empty or begins
    with the comment start and a space: snippets reach the prompt as
    comments only. *)
Theorem context_lines_are_comments getLanguageConfig displayPath
    getSuffixAfterFirstNewline gate options snippetList isInfill modelHelper line :
  let start :=
    match getLanguageConfig (document_languageId options) with
    | Some config => commentStart config
    | None => "// "
    end in
  split LF start = [start] →
  split LF (displayPath (document_uri options)) = [displayPath (document_uri options)] →
  line ∈ split LF
           (context (createPromptContext getLanguageConfig displayPath
                       getSuffixAfterFirstNewline gate options snippetList isInfill
                       modelHelper)) →
  line = EmptyString ∨ ∃ rest, line = start +:+ " " +:+ rest.
Proof.
  intros start Hstart Hpath Hline.
  rewrite (proj1 (proj2 (createPromptContext_fields getLanguageConfig displayPath
                           getSuffixAfterFirstNewline gate options snippetList isInfill
                           modelHelper))) in Hline.
  unfold initialPrompt in Hline. cbn [context] in Hline. fold start in Hline.
  apply split_blocks in Hline as [-> | (block & Hblock & Hline)]; [left; reflexivity |].
  right.
  apply list_elem_of_fmap in Hblock as (snippet & -> & _).
  unfold fileNameLine in Hline.
  change (Ascii.ascii_of_nat 10) with LF in Hline.
  rewrite (rendered_snippet_lines start (displayPath (document_uri options))
             (content snippet) Hstart Hpath) in Hline.
  apply elem_of_cons in Hline as [-> | Hline].
  - exists ("Path: " +:+ displayPath (document_uri options)). reflexivity.
  - apply list_elem_of_fmap in Hline as (piece & -> & _). exists piece. reflexivity.
Qed.

Lemma context_lines_are_comments_witness :
  "//  Path: file://foo/bar/test.ts" = EmptyString
  ∨ ∃ rest, "//  Path: file://foo/bar/test.ts" = "// " +:+ " " +:+ rest.
Proof.
  apply (context_lines_are_comments (λ _, None) (λ uri, uri) (λ suffix, suffix)
           (Some "1") shortDocument someSnippets false concatenatingHelper
           "//  Path: file://foo/bar/test.ts" eq_refl eq_refl).
  vm_compute. apply list_elem_of_here.
Defined.

End OllamaContext.
